(** * StakingCard: the stake / unstake submission handler of the wallet

    A shallow embedding of
    [apps/wallet/src/ui/app/staking/stake/StakingCard.tsx].

    The component is a React function component.  Its body reads a constant
    and a handful of hook results, derives some values from them, declares two
    react-query mutations and one submit handler, and returns an element.  We
    model

    - the values the body reads as a record [Inputs];
    - the derived values ([validatorAddress], [stakeData], [delegationId],
      ...) as functions of that record;
    - the asynchronous functions as finite interaction trees [Prog]: a
      synchronous side effect is a [Do] node, an [await] on real I/O is an
      [Await] node answered by the environment;
    - the returned element as a value of type [Element];
    - the hosting Formik form as a transition system over user and
      environment events. *)

From Stdlib Require Import ZArith List String Ascii Bool Lia.
Import ListNotations.
Local Open Scope string_scope.
Local Open Scope Z_scope.

Set Implicit Arguments.

(* ================================================================== *)
(** ** JavaScript values *)

(** A thrown value.  The handler only ever looks at [(e as Error)?.message],
    which may be missing. *)
Record thrown : Type := { message : option string }.

(** [new Error(m)] *)
Definition Error (m : string) : thrown := {| message := Some m |}.

(** Result of a call that may throw, or of an awaited promise
    ([Returns]: fulfilled, [Throws]: rejected). *)
Inductive outcome (A : Type) : Type :=
| Returns (a : A)
| Throws (e : thrown).
Arguments Throws {A} e.

(** Completion of a block of statements inside a function body: it ran to
    its end, executed [return;], or threw. *)
Inductive completion (A : Type) : Type :=
| Normal (a : A)
| Return
| Throw (e : thrown).
Arguments Return {A}.
Arguments Throw {A} e.

(** [!s] for a string. *)
Definition falsy (s : string) : bool := String.eqb s "".

(** [!x] for a value of type [string | null]. *)
Definition nullish_or_empty (x : option string) : bool :=
  match x with
  | None => true
  | Some s => falsy s
  end.

(** [x === null] *)
Definition is_null {A : Type} (x : option A) : bool :=
  match x with
  | None => true
  | Some _ => false
  end.

(* ================================================================== *)
(** ** URLSearchParams *)

(** The query string of the hosting view, and the query string of the
    receipt URL, are [URLSearchParams] objects: an ordered list of
    name/value pairs. *)
Definition URLSearchParams : Type := list (string * string).

(** [searchParams.get(name)]: the first value stored under [name], or
    [null]. *)
Fixpoint URLSearchParams_get (ps : URLSearchParams) (name : string)
  : option string :=
  match ps with
  | [] => None
  | (k, v) :: rest =>
      if String.eqb k name then Some v else URLSearchParams_get rest name
  end.

Definition hex_digit (n : N) : ascii :=
  match String.get (N.to_nat n) "0123456789ABCDEF" with
  | Some c => c
  | None => "0"%char
  end.

(** Bytes the application/x-www-form-urlencoded serializer leaves alone:
    ASCII alphanumerics and [*], [-], [.], [_]. *)
Definition urlencoded_safe (n : N) : bool :=
  ((48 <=? n) && (n <=? 57) || (65 <=? n) && (n <=? 90)
   || (97 <=? n) && (n <=? 122)
   || (n =? 42) || (n =? 45) || (n =? 46) || (n =? 95))%N.

Definition urlencode_byte (c : ascii) : string :=
  let n := N_of_ascii c in
  if (n =? 32)%N then "+"
  else if urlencoded_safe n then String c ""
  else String "%" (String (hex_digit (n / 16)) (String (hex_digit (n mod 16)) "")).

Fixpoint urlencode (s : string) : string :=
  match s with
  | EmptyString => ""
  | String c rest => urlencode_byte c ++ urlencode rest
  end.

(** [params.toString()] *)
Definition URLSearchParams_toString (ps : URLSearchParams) : string :=
  String.concat "&" (map (fun kv => urlencode (fst kv) ++ "=" ++ urlencode (snd kv)) ps).









(* ================================================================== *)
(** ** Data read by the component *)

(** Modelled from the spec: the type of [stakeData.status], declared in
    [@mysten/sui.js] and not under src/: "status (one of [Pending],
    [Active])". *)
Inductive StakeStatus : Type := Pending | Active.

Definition is_Pending (s : StakeStatus) : bool :=
  match s with
  | Pending => true
  | Active => false
  end.

(** Modelled from the spec: the type of a stake position, declared in
    [@mysten/sui.js] and not under src/: "stake identifier (opaque string),
    status, principal amount, estimated accrued reward".  The component
    reads [stakedSuiId], [status] and [estimatedReward]. *)
Record StakeObject : Type := {
  stakedSuiId : string;
  status : StakeStatus;
  principal : Z;
  estimatedReward : option Z
}.

(** Modelled from the spec: the "system/epoch state" view, declared outside
    src/; the component reads its [epoch]. *)
Record SystemState : Type := { epoch : Z }.

(** [initialValues] and [FormValues]. *)
Record FormValues : Type := { amount : string }.

Definition initialValues : FormValues := {| amount := "" |}.

Definition SUI_TYPE_ARG : string := "0x2::sui::SUI".

(** [options] passed to [signAndExecuteTransaction]. *)
Record ResponseOptions : Type := {
  showInput : bool;
  showEffects : bool;
  showEvents : bool
}.

(** Synchronous side effects issued by the component's functions, in the
    order they are issued. *)
Inductive Effect : Type :=
| trackEvent (name : string) (validator : option string)
| Sentry_startTransaction (name : string)
| sentryTransaction_finish
| invalidateQueries (queryKey : list string)
| resetForm
| navigate (to : string)
| toast_error (heading : string) (detail : option string).

(** Functions and types the file imports from modules that are not part of
    it. *)
Class Imports : Type := {
  Transaction : Type;
  Response : Type;
  Signer : Type;
  InitializedSigner : Type;
  DelegatedStake : Type;
  ValidationSchema : Type;
  (** [_helpers] *)
  parseAmount : string -> Z -> Z;
  (** [./utils/transaction] *)
  createStakeTransaction : Z -> string -> outcome Transaction;
  createUnstakeTransaction : string -> outcome Transaction;
  (** [@mysten/sui.js] *)
  getTransactionDigest : Response -> string;
  (** [../getDelegationByStakeId] *)
  getDelegationDataByStakeId : list DelegatedStake -> string -> option StakeObject;
  (** [../getStakeSuiBySuiId] *)
  getStakeSuiBySuiId : list DelegatedStake -> option string -> Z;
  (** [./utils/validation] *)
  createValidationSchema : Z -> string -> Z -> bool -> Z -> ValidationSchema;
  (** [Coin.getCoinSymbol] *)
  getCoinSymbol : string -> string
}.

Section StakingCard.

Context {imports : Imports}.

(** The constant of line 55 and the hook results of lines 56-68, 89 and
    112.  The component binds [coinType] to [SUI_TYPE_ARG]; its body is
    written for a [coinType] that may be absent, so the field is a
    [string | null] here. *)
Record Inputs : Type := {
  coinType : option string;
  accountAddress : option string;
  suiBalance : option Z;            (* suiBalance?.totalBalance *)
  loadingSuiBalances : bool;
  searchParams : URLSearchParams;
  allDelegation : option (list DelegatedStake);
  isLoading : bool;
  system : option SystemState;
  validatorsIsloading : bool;
  coinDecimals : Z;
  signer : option Signer
}.

(* ------------------------------------------------------------------ *)
(** *** Derived values (lines 59-109) *)

Definition coinBalance (i : Inputs) : Z :=
  match suiBalance i with
  | Some b => b
  | None => 0
  end.

Definition validatorAddress (i : Inputs) : option string :=
  URLSearchParams_get (searchParams i) "address".

Definition stakeSuiIdParams (i : Inputs) : option string :=
  URLSearchParams_get (searchParams i) "staked".

Definition unstake (i : Inputs) : bool :=
  match URLSearchParams_get (searchParams i) "unstake" with
  | Some v => String.eqb v "true"
  | None => false
  end.

Definition totalTokenBalance (i : Inputs) : Z :=
  match allDelegation i with
  | None => 0
  | Some ds => getStakeSuiBySuiId ds (stakeSuiIdParams i)
  end.

Definition stakeData (i : Inputs) : option StakeObject :=
  match allDelegation i, stakeSuiIdParams i with
  | Some ds, Some id => if falsy id then None else getDelegationDataByStakeId ds id
  | _, _ => None
  end.

Definition coinSymbol (i : Inputs) : string :=
  match coinType i with
  | Some t => if falsy t then "" else getCoinSymbol t
  | None => ""
  end.

Definition suiEarned (i : Inputs) : Z :=
  match stakeData i with
  | Some sd => match estimatedReward sd with Some r => r | None => 0 end
  | None => 0
  end.

(** set minimum stake amount to 1 SUI *)
Definition minimumStake (i : Inputs) : Z := parseAmount "1" (coinDecimals i).

Definition validationSchema (i : Inputs) : ValidationSchema :=
  createValidationSchema (coinBalance i) (coinSymbol i) (coinDecimals i)
    (unstake i) (minimumStake i).

Definition delegationId (i : Inputs) : option string :=
  match stakeData i with
  | None => None
  | Some sd => if is_Pending (status sd) then None else Some (stakedSuiId sd)
  end.

(* ------------------------------------------------------------------ *)
(** *** Asynchronous functions as interaction trees *)

(** Calls whose promise the code awaits and that settle only after real
    I/O: resolving the signer and signing-and-broadcasting. *)
Inductive AsyncCall : Type :=
| call_signer (f : Signer)
| signAndExecuteTransaction
    (s : InitializedSigner) (transaction : Transaction) (options : ResponseOptions).

Definition answer (c : AsyncCall) : Type :=
  match c with
  | call_signer _ => InitializedSigner
  | signAndExecuteTransaction _ _ _ => Response
  end.

Inductive Prog (A : Type) : Type :=
| Ret (a : A)
| Do (e : Effect) (k : Prog A)
| Await (c : AsyncCall) (k : outcome (answer c) -> Prog A).
Arguments Ret {A} a.
Arguments Do {A} e k.
Arguments Await {A} c k.

Fixpoint bind {A B : Type} (p : Prog A) (f : A -> Prog B) : Prog B :=
  match p with
  | Ret a => f a
  | Do e k => Do e (bind k f)
  | Await c k => Await c (fun r => bind (k r) f)
  end.

(** [await c] *)
Definition await (c : AsyncCall) : Prog (outcome (answer c)) :=
  Await c (fun r => Ret r).

Definition perform (e : Effect) : Prog unit := Do e (Ret tt).

(** Sequencing in a body that may throw: a throw skips the rest. *)
Definition bind_outcome {A B : Type}
  (p : Prog (outcome A)) (f : A -> Prog (outcome B)) : Prog (outcome B) :=
  bind p (fun r =>
    match r with
    | Returns a => f a
    | Throws e => Ret (Throws e)
    end).

(** [try { body } finally { fin }] *)
Definition try_finally {A : Type} (body : Prog (outcome A)) (fin : Prog unit)
  : Prog (outcome A) :=
  bind body (fun r => bind fin (fun _ => Ret r)).

(** Sequencing of statements: [return;] and a throw skip the rest. *)
Definition bind_completion {A B : Type}
  (p : Prog (completion A)) (f : A -> Prog (completion B))
  : Prog (completion B) :=
  bind p (fun r =>
    match r with
    | Normal a => f a
    | Return => Ret Return
    | Throw e => Ret (Throw e)
    end).

(** [await p] as a statement: a rejection is thrown at the await. *)
Definition awaited {A : Type} (p : Prog (outcome A)) : Prog (completion A) :=
  bind p (fun r =>
    match r with
    | Returns a => Ret (Normal a)
    | Throws e => Ret (Throw e)
    end).

(** [try { body } catch (e) { handler }] *)
Definition try_catch {A : Type}
  (body : Prog (completion A)) (handler : thrown -> Prog (completion A))
  : Prog (completion A) :=
  bind body (fun r =>
    match r with
    | Throw e => handler e
    | other => Ret other
    end).

(** The promise of an [async () => { body }] whose body returns nothing:
    fulfilled when the body ends or returns, rejected when it throws. *)
Definition async_fn (body : Prog (completion unit)) : Prog (outcome unit) :=
  bind body (fun r =>
    match r with
    | Normal _ | Return => Ret (Returns tt)
    | Throw e => Ret (Throws e)
    end).

Notation "x <- p ;; k" := (bind p (fun x => k))
  (at level 61, p at next level, right associativity).
Notation "x <-! p ;; k" := (bind_outcome p (fun x => k))
  (at level 61, p at next level, right associativity).
Notation "x <-? p ;; k" := (bind_completion p (fun x => k))
  (at level 61, p at next level, right associativity).
Notation "'emit' e ;; k" := (Do e k)
  (at level 61, e at next level, right associativity).

(* ------------------------------------------------------------------ *)
(** *** The two mutations (lines 114-179)

    [mutateAsync] of react-query hands its argument to [mutationFn] and
    settles with its result; mutations are not retried. *)

Definition mutateAsync {V R : Type} (mutationFn : V -> Prog (outcome R)) (v : V)
  : Prog (outcome R) := mutationFn v.

Definition signing_options : ResponseOptions :=
  {| showInput := true; showEffects := true; showEvents := true |}.

Record StakeVariables : Type := {
  tokenTypeArg : string;
  stake_amount : Z;                 (* amount *)
  stake_validatorAddress : string   (* validatorAddress *)
}.

Definition stakeToken (i : Inputs) (v : StakeVariables) : Prog (outcome Response) :=
  let validatorAddress := stake_validatorAddress v in
  let amount := stake_amount v in
  match falsy validatorAddress || (amount =? 0) || falsy (tokenTypeArg v),
        signer i with
  | false, Some signer =>
      emit trackEvent "Stake" (Some validatorAddress) ;;
      emit Sentry_startTransaction "stake" ;;
      try_finally
        (transaction <-! Ret (createStakeTransaction amount validatorAddress) ;;
         initializedSigner <-! await (call_signer signer) ;;
         await (signAndExecuteTransaction initializedSigner transaction
                  signing_options))
        (perform sentryTransaction_finish)
  | _, _ => Ret (Throws (Error "Failed, missing required field"))
  end.

Definition unStakeToken (i : Inputs) (stakedSuiId : string)
  : Prog (outcome Response) :=
  match falsy stakedSuiId, signer i with
  | false, Some signer =>
      emit trackEvent "Unstake" None ;;
      emit Sentry_startTransaction "stake" ;;
      try_finally
        (transaction <-! Ret (createUnstakeTransaction stakedSuiId) ;;
         initializedSigner <-! await (call_signer signer) ;;
         await (signAndExecuteTransaction initializedSigner transaction
                  signing_options))
        (perform sentryTransaction_finish)
  | _, _ => Ret (Throws (Error "Failed, missing required field."))
  end.

(* ------------------------------------------------------------------ *)
(** *** The submit handler (lines 181-259) *)

(** The URL handed to [navigate] on line 227. *)
Definition receipt_url (txDigest : string) : string :=
  "/receipt?" ++ URLSearchParams_toString [("txdigest", txDigest); ("from", "stake")].

(** The element handed to [toast.error] on line 235: a heading and, when
    the message is a non-empty string, the message. *)
Definition failure_toast (unstake : bool) (e : thrown) : Effect :=
  toast_error
    ((if unstake then "Unstake" else "Stake") ++ " failed")
    (match message e with
     | Some msg => if falsy msg then None else Some msg
     | None => None
     end).

Definition onHandleSubmit (i : Inputs) (values : FormValues)
  : Prog (outcome unit) :=
  async_fn
    match coinType i, validatorAddress i with
    | Some coinType, Some validatorAddress =>
        try_catch
          (let bigIntAmount := parseAmount (amount values) (coinDecimals i) in
           txDigest <-?
             (if unstake i then
                (* check for delegation data *)
                match stakeData i, stakeSuiIdParams i with
                | Some stakeData, Some stakeSuiIdParams =>
                    if falsy stakeSuiIdParams || is_Pending (status stakeData)
                    then Ret Return
                    else
                      response <-? awaited (mutateAsync (unStakeToken i)
                                              stakeSuiIdParams) ;;
                      Ret (Normal (getTransactionDigest response))
                | _, _ => Ret Return
                end
              else
                response <-? awaited (mutateAsync (stakeToken i)
                                        {| stake_amount := bigIntAmount;
                                           tokenTypeArg := coinType;
                                           stake_validatorAddress := validatorAddress |}) ;;
                Ret (Normal (getTransactionDigest response))) ;;
           (* Invalidate the react query for system state and validator *)
           emit invalidateQueries ["system"; "state"] ;;
           emit invalidateQueries ["validator"] ;;
           emit resetForm ;;
           emit navigate (receipt_url txDigest) ;;
           Ret (Normal tt))
          (fun e =>
             emit failure_toast (unstake i) e ;;
             Ret (Normal tt))
    | _, _ => Ret Return
    end.

(* ------------------------------------------------------------------ *)
(** *** Running a program *)

(** What an observer of a run sees: the effects issued and the awaited
    calls made, in order. *)
Inductive Entry : Type :=
| Did (e : Effect)
| Called (c : AsyncCall).

(** The environment: how each awaited call settles. *)
Definition World : Type := forall c : AsyncCall, outcome (answer c).

Fixpoint run {A : Type} (w : World) (p : Prog A) : list Entry * A :=
  match p with
  | Ret a => ([], a)
  | Do e k => let '(l, a) := run w k in (Did e :: l, a)
  | Await c k => let '(l, a) := run w (k (w c)) in (Called c :: l, a)
  end.

Definition trace {A : Type} (w : World) (p : Prog A) : list Entry := fst (run w p).
Definition result {A : Type} (w : World) (p : Prog A) : A := snd (run w p).

(** The mutation call the handler reaches with the given inputs (lines
    186-214), if it reaches one: [None] when one of its guards returns. *)
Definition submitted (i : Inputs) (values : FormValues)
  : option (Prog (outcome Response)) :=
  match coinType i, validatorAddress i with
  | Some coinType, Some validatorAddress =>
      if unstake i then
        match stakeData i, stakeSuiIdParams i with
        | Some stakeData, Some stakeSuiIdParams =>
            if falsy stakeSuiIdParams || is_Pending (status stakeData)
            then None
            else Some (mutateAsync (unStakeToken i) stakeSuiIdParams)
        | _, _ => None
        end
      else
        Some (mutateAsync (stakeToken i)
                {| stake_amount := parseAmount (amount values) (coinDecimals i);
                   tokenTypeArg := coinType;
                   stake_validatorAddress := validatorAddress |})
  | _, _ => None
  end.

(** The guards of lines 186 and 195-199, as one condition. *)
Definition returns_early (i : Inputs) : bool :=
  is_null (coinType i) || is_null (validatorAddress i)
  || (unstake i
      && (match stakeData i with
          | None => true
          | Some stakeData => is_Pending (status stakeData)
          end
          || nullish_or_empty (stakeSuiIdParams i))).

(** The runs a mutation can have: rejected by its guard, by the
    transaction builder, by the signer factory, or settled by the
    broadcast. *)
Inductive mutation_run (w : World) : list Entry -> outcome Response -> Prop :=
| run_guard (msg : string) :
    mutation_run w [] (Throws (Error msg))
| run_builder (name : string) (validator : option string) (e : thrown) :
    mutation_run w
      [Did (trackEvent name validator); Did (Sentry_startTransaction "stake");
       Did sentryTransaction_finish]
      (Throws e)
| run_signer (name : string) (validator : option string) (f : Signer) (e : thrown) :
    w (call_signer f) = Throws e ->
    mutation_run w
      [Did (trackEvent name validator); Did (Sentry_startTransaction "stake");
       Called (call_signer f); Did sentryTransaction_finish]
      (Throws e)
| run_broadcast (name : string) (validator : option string) (f : Signer)
    (s : InitializedSigner) (t : Transaction) (r : outcome Response) :
    w (call_signer f) = Returns s ->
    w (signAndExecuteTransaction s t signing_options) = r ->
    mutation_run w
      [Did (trackEvent name validator); Did (Sentry_startTransaction "stake");
       Called (call_signer f);
       Called (signAndExecuteTransaction s t signing_options);
       Did sentryTransaction_finish]
      r.

(** Projections of a trace. *)
Definition invalidated (l : list Entry) : list (list string) :=
  flat_map (fun x => match x with Did (invalidateQueries k) => [k] | _ => [] end) l.

Definition navigations (l : list Entry) : list string :=
  flat_map (fun x => match x with Did (navigate to) => [to] | _ => [] end) l.

Definition toasts (l : list Entry) : list (string * option string) :=
  flat_map (fun x => match x with Did (toast_error h d) => [(h, d)] | _ => [] end) l.

Definition resets (l : list Entry) : nat :=
  List.length (filter (fun x => match x with Did resetForm => true | _ => false end) l).

Definition broadcasts (l : list Entry) : list Transaction :=
  flat_map (fun x =>
    match x with Called (signAndExecuteTransaction _ t _) => [t] | _ => [] end) l.

Definition signer_calls (l : list Entry) : nat :=
  List.length (filter (fun x => match x with Called (call_signer _) => true | _ => false end) l).

(* ------------------------------------------------------------------ *)
(** *** The returned element (lines 261-385) *)

(** The render props the component takes from Formik. *)
Record FormikProps : Type := {
  isSubmitting : bool;
  isValid : bool;
  errors_amount : option string;    (* errors.amount *)
  touched_amount : bool             (* touched.amount *)
}.

Inductive FormBody : Type :=
| UnStakeForm (stakedSuiId : option string) (coinBalance : Z)
    (coinType : string) (stakingReward : Z) (epoch : Z)
| StakeForm (validatorAddress : string) (coinBalance : Z)
    (coinType : string) (epoch : option Z).

Inductive ButtonContent : Type :=
| LoadingIndicator
| Text (label : string).

Record Card : Type := {
  loading : bool;
  form : FormBody;
  alert : option string;
  staking_rewards_note : bool;
  back_disabled : bool;
  submit_disabled : bool;
  submit_content : ButtonContent
}.

Inductive Element : Type :=
| Navigate (to : string) (replace : bool)
| Form (card : Card).

Definition StakingCard (i : Inputs) (f : FormikProps) : Element :=
  match coinType i, validatorAddress i with
  | Some coinType, Some validatorAddress =>
      if falsy coinType || falsy validatorAddress
         || (negb (validatorsIsloading i) && is_null (system i))
      then Navigate "/" true
      else
        Form
          {| loading := isLoading i || validatorsIsloading i || loadingSuiBalances i;
             form :=
               if unstake i
               then UnStakeForm (stakeSuiIdParams i) (totalTokenBalance i) coinType
                      (suiEarned i)
                      (match system i with Some s => epoch s | None => 0 end)
               else StakeForm validatorAddress (coinBalance i) coinType
                      (option_map epoch (system i));
             alert :=
               if unstake i || touched_amount f
               then match errors_amount f with
                    | Some e => if falsy e then None else Some e
                    | None => None
                    end
               else None;
             staking_rewards_note := negb (unstake i);
             back_disabled := isSubmitting f;
             submit_disabled :=
               negb (isValid f) || isSubmitting f
               || (unstake i && nullish_or_empty (delegationId i));
             submit_content :=
               if isSubmitting f then LoadingIndicator
               else if unstake i then Text "Unstake Now"
               else Text "Stake Now" |}
  | _, _ => Navigate "/" true
  end.

(** The primary button can be clicked: the form is on screen, not hidden
    behind the loading placeholder, and the button is not disabled. *)
Definition submit_enabled (i : Inputs) (f : FormikProps) : bool :=
  match StakingCard i f with
  | Form card => negb (loading card) && negb (submit_disabled card)
  | Navigate _ _ => false
  end.

(* ------------------------------------------------------------------ *)
(** *** The form as a transition system

    Formik owns the form state.  Its contract, as far as the component
    relies on it: [submitForm] sets [isSubmitting] and calls [onSubmit];
    when the promise [onSubmit] returned settles, [isSubmitting] is
    cleared; [resetForm()] puts the initial values back.  Formik validates
    once more inside [submitForm] and skips [onSubmit] when that fails; here
    [submitForm] always calls [onSubmit], which only adds runs.  The event
    loop is single-threaded: a handler runs without interruption up to its
    next await on I/O, and the element on screen is the one rendered from
    the current state. *)

Record FormState : Type := {
  values : FormValues;
  formik : FormikProps;
  inflight : list (Prog (outcome unit));   (* suspended [onSubmit] calls *)
  history : list Entry
}.

Inductive FormEvent : Type :=
| click_submit                                   (* click on the primary button *)
| settles (n : nat)                              (* the call awaited by the n-th suspended handler settles *)
| types (text : string)                          (* the operator edits the amount *)
| validated (valid : bool) (error : option string). (* Formik finished a validation run *)

Definition set_isSubmitting (b : bool) (f : FormikProps) : FormikProps :=
  {| isSubmitting := b; isValid := isValid f;
     errors_amount := errors_amount f; touched_amount := touched_amount f |}.

(** What an effect does to the form: only [resetForm] touches it. *)
Definition form_effect (e : Effect) (st : FormState) : FormState :=
  match e with
  | resetForm =>
      {| values := initialValues;
         formik := {| isSubmitting := false; isValid := isValid (formik st);
                      errors_amount := errors_amount (formik st);
                      touched_amount := false |};
         inflight := inflight st;
         history := history st ++ [Did e] |}
  | _ =>
      {| values := values st; formik := formik st; inflight := inflight st;
         history := history st ++ [Did e] |}
  end.

(** Run a handler up to its next await, or to its end. *)
Fixpoint advance (p : Prog (outcome unit)) (others : list (Prog (outcome unit)))
  (st : FormState) : FormState :=
  match p with
  | Do e k => advance k others (form_effect e st)
  | Await c k =>
      {| values := values st; formik := formik st;
         inflight := others ++ [Await c k];
         history := history st ++ [Called c] |}
  | Ret _ =>
      {| values := values st; formik := set_isSubmitting false (formik st);
         inflight := others; history := history st |}
  end.

(** Formik's [submitForm]. *)
Definition submitForm (i : Inputs) (st : FormState) : FormState :=
  advance (onHandleSubmit i (values st)) (inflight st)
    {| values := values st;
       formik := {| isSubmitting := true; isValid := isValid (formik st);
                    errors_amount := errors_amount (formik st);
                    touched_amount := true |};
       inflight := inflight st; history := history st |}.

Fixpoint remove_nth {A : Type} (n : nat) (l : list A) : list A :=
  match n, l with
  | _, [] => []
  | O, _ :: rest => rest
  | S m, x :: rest => x :: remove_nth m rest
  end.

Definition form_step (i : Inputs) (w : World) (st : FormState) (ev : FormEvent)
  : FormState :=
  match ev with
  | click_submit =>
      if submit_enabled i (formik st) then submitForm i st else st
  | settles n =>
      match nth_error (inflight st) n with
      | Some (Await c k) => advance (k (w c)) (remove_nth n (inflight st)) st
      | _ => st
      end
  | types text =>
      {| values := {| amount := text |}; formik := formik st;
         inflight := inflight st; history := history st |}
  | validated valid error =>
      {| values := values st;
         formik := {| isSubmitting := isSubmitting (formik st); isValid := valid;
                      errors_amount := error;
                      touched_amount := touched_amount (formik st) |};
         inflight := inflight st; history := history st |}
  end.

Definition form_run (i : Inputs) (w : World) (st : FormState) (evs : list FormEvent)
  : FormState := fold_left (form_step i w) evs st.

(** The state in which a submission that started in [st] ends when each
    call it awaits settles before any other event arrives. *)
Fixpoint complete (w : World) (p : Prog (outcome unit)) (st : FormState)
  : FormState :=
  match p with
  | Do e k => complete w k (form_effect e st)
  | Await c k =>
      complete w (k (w c))
        {| values := values st; formik := formik st;
           inflight := [Await c k];
           history := history st ++ [Called c] |}
  | Ret _ =>
      {| values := values st; formik := set_isSubmitting false (formik st);
         inflight := []; history := history st |}
  end.

(** Number of calls a run awaits. *)
Definition awaits (l : list Entry) : nat :=
  List.length (filter (fun x => match x with Called _ => true | _ => false end) l).

(** No await is left in the program. *)
Fixpoint no_await {A : Type} (p : Prog A) : Prop :=
  match p with
  | Ret _ => True
  | Do _ k => no_await k
  | Await _ _ => False
  end.

(** [resetForm] is only called in the last synchronous stretch of the
    program. *)
Fixpoint reset_last {A : Type} (p : Prog A) : Prop :=
  match p with
  | Ret _ => True
  | Do resetForm k => no_await k
  | Do _ k => reset_last k
  | Await _ k => forall r, reset_last (k r)
  end.

(** At most one submission is in flight, and while one is, the form says
    so. *)
Definition single_flight (st : FormState) : Prop :=
  match inflight st with
  | [] => True
  | [p] => isSubmitting (formik st) = true /\ reset_last p
  | _ :: _ :: _ => False
  end.

(** The form as Formik mounts it: no error has been recorded yet. *)
Definition mounted : FormState :=
  {| values := initialValues;
     formik := {| isSubmitting := false; isValid := true;
                  errors_amount := None; touched_amount := false |};
     inflight := []; history := [] |}.

(* ------------------------------------------------------------------ *)
(** *** Further projections of a trace *)

Definition tracked (l : list Entry) : list (string * option string) :=
  flat_map (fun x => match x with Did (trackEvent n v) => [(n, v)] | _ => [] end) l.

Definition sentry_starts (l : list Entry) : list string :=
  flat_map (fun x =>
    match x with Did (Sentry_startTransaction n) => [n] | _ => [] end) l.

Definition sentry_finishes (l : list Entry) : nat :=
  List.length
    (filter (fun x => match x with Did sentryTransaction_finish => true | _ => false end) l).

(** The body the two mutations share (lines 124-149 and 155-177), run in
    [w]: [guard] is the missing-field test on the variables, [msg] the
    message of its error, [name] and [validator] what is tracked, [built]
    what the transaction builder gives. *)
Definition pipeline (i : Inputs) (w : World) (guard : bool)
  (name : string) (validator : option string) (msg : string)
  (built : outcome Transaction) : list Entry * outcome Response :=
  match guard, signer i with
  | false, Some f =>
      match built with
      | Throws e =>
          ([Did (trackEvent name validator); Did (Sentry_startTransaction "stake");
            Did sentryTransaction_finish],
           Throws e)
      | Returns t =>
          match w (call_signer f) with
          | Throws e =>
              ([Did (trackEvent name validator);
                Did (Sentry_startTransaction "stake");
                Called (call_signer f); Did sentryTransaction_finish],
               Throws e)
          | Returns s =>
              ([Did (trackEvent name validator);
                Did (Sentry_startTransaction "stake");
                Called (call_signer f);
                Called (signAndExecuteTransaction s t signing_options);
                Did sentryTransaction_finish],
               w (signAndExecuteTransaction s t signing_options))
          end
      end
  | _, _ => ([], Throws (Error msg))
  end.

(** What the handler does after its mutation has run with trace [l] and
    result [r] (lines 216-245). *)
Definition settle_submission (i : Inputs) (run_of_mutation : list Entry * outcome Response)
  : list Entry * outcome unit :=
  match snd run_of_mutation with
  | Returns response =>
      ((fst run_of_mutation ++
        [Did (invalidateQueries ["system"; "state"]);
         Did (invalidateQueries ["validator"]);
         Did resetForm;
         Did (navigate (receipt_url (getTransactionDigest response)))])%list,
       Returns tt)
  | Throws e =>
      ((fst run_of_mutation ++ [Did (failure_toast (unstake i) e)])%list,
       Returns tt)
  end.

End StakingCard.

Notation "x <- p ;; k" := (bind p (fun x => k))
  (at level 61, p at next level, right associativity).
Notation "x <-! p ;; k" := (bind_outcome p (fun x => k))
  (at level 61, p at next level, right associativity).
Notation "x <-? p ;; k" := (bind_completion p (fun x => k))
  (at level 61, p at next level, right associativity).
Notation "'emit' e ;; k" := (Do e k)
  (at level 61, e at next level, right associativity).

(* ================================================================== *)
(** ** The imported helpers, for concrete runs *)

Module Sample.

Definition digit_value (c : ascii) : option Z :=
  let n := N_of_ascii c in
  if ((48 <=? n) && (n <=? 57))%N then Some (Z.of_N n - 48) else None.

Fixpoint digits_value (s : string) (acc : Z) : option Z :=
  match s with
  | EmptyString => Some acc
  | String c rest =>
      match digit_value c with
      | Some v => digits_value rest (10 * acc + v)
      | None => None
      end
  end.

(** Split a numeral at its first decimal point. *)
Fixpoint split_point (s : string) : string * option string :=
  match s with
  | EmptyString => ("", None)
  | String c rest =>
      if Ascii.eqb c "."%char then ("", Some rest)
      else let '(whole, frac) := split_point rest in (String c whole, frac)
  end.

(** Modelled from the spec: [parseAmount] of [_helpers], which is not under
    src/.  A FormAmount is "a decimal string ... convertible to an integer
    count of smallest-unit tokens using the coin's decimal precision;
    invalid or overflowing input is a validation failure, not a crash", and
    a smallest unit is the amount "scaled by a fixed power-of-ten
    precision".  A string that is not a non-negative decimal numeral with at
    most [coinDecimals] fractional digits converts to 0, the amount every
    validation rule refuses. *)
Definition parseAmount (amount : string) (coinDecimals : Z) : Z :=
  let '(whole, frac) := split_point amount in
  let frac := match frac with Some f => f | None => "" end in
  let places := Z.of_nat (String.length frac) in
  match digits_value whole 0, digits_value frac 0 with
  | Some w, Some f =>
      if (String.length whole + String.length frac =? 0)%nat then 0
      else if places <=? coinDecimals
           then w * 10 ^ coinDecimals + f * 10 ^ (coinDecimals - places)
           else 0
  | _, _ => 0
  end.

(** Modelled from the spec: the unsigned transactions of
    [./utils/transaction], which is not under src/: "a single add stake call
    with the exact integer amount ... directed at the given validator" and
    "a single withdraw stake call referencing the stake identifier". *)
Inductive UnsignedTransaction : Type :=
| AddStake (amount : Z) (validator : string)
| WithdrawStake (stakeId : string).

(** Modelled from the spec: [createStakeTransaction]; it "must reject (fail
    with InvalidInput) a zero/negative amount". *)
Definition createStakeTransaction (amount : Z) (validator : string)
  : outcome UnsignedTransaction :=
  if amount <=? 0 then Throws (Error "InvalidInput")
  else Returns (AddStake amount validator).

(** Modelled from the spec: [createUnstakeTransaction]; it "must reject
    (fail with InvalidInput) ... an empty identifier". *)
Definition createUnstakeTransaction (stakeId : string)
  : outcome UnsignedTransaction :=
  if falsy stakeId then Throws (Error "InvalidInput")
  else Returns (WithdrawStake stakeId).

(** Modelled from the spec: the response of the signer, "a result object
    from which a transaction digest can be extracted". *)
Record SignedResponse : Type := { digest : string }.

(** Modelled from the spec: the delegation records of the external data
    layer, one per validator, each holding stake positions. *)
Record Delegation : Type := {
  delegation_validator : string;
  stakes : list StakeObject
}.

(** Modelled from the spec: [getDelegationDataByStakeId], not under src/: the
    stake position carrying the given stake identifier, if there is one. *)
Definition getDelegationDataByStakeId (ds : list Delegation) (id : string)
  : option StakeObject :=
  find (fun s => String.eqb (stakedSuiId s) id) (flat_map stakes ds).

(** Modelled from the spec: [getStakeSuiBySuiId], not under src/: the
    principal of that position, 0 when there is none. *)
Definition getStakeSuiBySuiId (ds : list Delegation) (id : option string) : Z :=
  match id with
  | Some id =>
      match getDelegationDataByStakeId ds id with
      | Some s => principal s
      | None => 0
      end
  | None => 0
  end.

(** Modelled from the spec: the rule set of [createValidationSchema], not
    under src/, kept as the five values it is built from: "build(balance,
    symbol, decimals, mode, minimumStake) -> ValidationRuleSet". *)
Record RuleSet : Type := {
  rule_balance : Z;
  rule_symbol : string;
  rule_decimals : Z;
  rule_unstake : bool;
  rule_minimumStake : Z
}.

Fixpoint after_last_colon (s : string) : string :=
  match s with
  | EmptyString => ""
  | String c rest =>
      if existsb (Ascii.eqb ":"%char) (list_ascii_of_string rest)
      then after_last_colon rest
      else if Ascii.eqb c ":"%char then rest else String c rest
  end.

(** Modelled from the spec: [Coin.getCoinSymbol], not under src/; the spec
    only has a "symbol: string", taken here to be the last segment of the
    coin type. *)
Definition getCoinSymbol (coinType : string) : string := after_last_colon coinType.

Definition imports : Imports :=
  Build_Imports unit unit
    parseAmount createStakeTransaction createUnstakeTransaction
    digest getDelegationDataByStakeId getStakeSuiBySuiId
    Build_RuleSet getCoinSymbol.

Definition wallet_signer : @Signer imports := tt.
Definition unlocked_signer : @InitializedSigner imports := tt.

Definition no_delegations : list (@DelegatedStake imports) := [].

(** A wallet holding 5 SUI, on the stake view of validator 0xV. *)
Definition stake_view : @Inputs imports :=
  {| coinType := Some SUI_TYPE_ARG;
     accountAddress := Some "0xA";
     suiBalance := Some 5000000000;
     loadingSuiBalances := false;
     searchParams := [("address", "0xV")];
     allDelegation := Some no_delegations;
     isLoading := false;
     system := Some {| epoch := 7 |};
     validatorsIsloading := false;
     coinDecimals := 9;
     signer := Some wallet_signer |}.

Definition position (st : StakeStatus) : StakeObject :=
  {| stakedSuiId := "S1"; status := st; principal := 2000000000;
     estimatedReward := None |}.

Definition delegations (st : StakeStatus) : list (@DelegatedStake imports) :=
  [ {| delegation_validator := "0xV"; stakes := [position st] |} ].

(** The unstake view of position S1, whose status is [st]. *)
Definition unstake_view (st : StakeStatus) : @Inputs imports :=
  {| coinType := Some SUI_TYPE_ARG;
     accountAddress := Some "0xA";
     suiBalance := Some 5000000000;
     loadingSuiBalances := false;
     searchParams := [("address", "0xV"); ("staked", "S1"); ("unstake", "true")];
     allDelegation := Some (delegations st);
     isLoading := false;
     system := Some {| epoch := 7 |};
     validatorsIsloading := false;
     coinDecimals := 9;
     signer := Some wallet_signer |}.

(** A view opened without a validator address. *)
Definition no_address_view : @Inputs imports :=
  {| coinType := Some SUI_TYPE_ARG;
     accountAddress := Some "0xA";
     suiBalance := Some 5000000000;
     loadingSuiBalances := false;
     searchParams := [];
     allDelegation := Some no_delegations;
     isLoading := false;
     system := Some {| epoch := 7 |};
     validatorsIsloading := false;
     coinDecimals := 9;
     signer := Some wallet_signer |}.

(** A network on which every broadcast succeeds with digest [d]. *)
Definition accepting (d : string) : @World imports :=
  fun c =>
    match c with
    | call_signer _ => Returns unlocked_signer
    | signAndExecuteTransaction _ _ _ => Returns {| digest := d |}
    end.

(** A signer that throws during broadcast. *)
Definition rejecting (msg : string) : @World imports :=
  fun c =>
    match c with
    | call_signer _ => Returns unlocked_signer
    | signAndExecuteTransaction _ _ _ => Throws (Error msg)
    end.

(** The stake view of a wallet whose signer is not available. *)
Definition locked_view : @Inputs imports :=
  {| coinType := Some SUI_TYPE_ARG;
     accountAddress := Some "0xA";
     suiBalance := Some 5000000000;
     loadingSuiBalances := false;
     searchParams := [("address", "0xV")];
     allDelegation := Some no_delegations;
     isLoading := false;
     system := Some {| epoch := 7 |};
     validatorsIsloading := false;
     coinDecimals := 9;
     signer := None |}.

(** The stake view of an empty wallet whose queries are still loading. *)
Definition empty_wallet_view : @Inputs imports :=
  {| coinType := Some SUI_TYPE_ARG;
     accountAddress := None;
     suiBalance := Some 0;
     loadingSuiBalances := true;
     searchParams := [("address", "0xV")];
     allDelegation := Some no_delegations;
     isLoading := true;
     system := None;
     validatorsIsloading := true;
     coinDecimals := 9;
     signer := Some wallet_signer |}.

(** The stake view opened with an empty [address] parameter. *)
Definition empty_address_view : @Inputs imports :=
  {| coinType := Some SUI_TYPE_ARG;
     accountAddress := Some "0xA";
     suiBalance := Some 5000000000;
     loadingSuiBalances := false;
     searchParams := [("address", "")];
     allDelegation := Some no_delegations;
     isLoading := false;
     system := Some {| epoch := 7 |};
     validatorsIsloading := false;
     coinDecimals := 9;
     signer := Some wallet_signer |}.

(** Variables of the stake mutation with a negative amount. *)
Definition negative_stake : StakeVariables :=
  {| tokenTypeArg := SUI_TYPE_ARG; stake_amount := -5;
     stake_validatorAddress := "0xV" |}.

Definition stake_tx : @Transaction imports := AddStake 2000000000 "0xV".
Definition unstake_tx : @Transaction imports := WithdrawStake "S1".
Definition receipt : @Response imports := {| digest := "9Xy" |}.
Definition broadcast (t : @Transaction imports) : @AsyncCall imports :=
  signAndExecuteTransaction unlocked_signer t signing_options.

(** A form holding [text], validated and not submitting. *)
Definition valid_form (text : string) : @FormState imports :=
  {| values := {| amount := text |};
     formik := {| isSubmitting := false; isValid := true;
                  errors_amount := None; touched_amount := true |};
     inflight := []; history := [] |}.

End Sample.

(* ================================================================== *)
(** ** Properties *)

(** One whole coin, in smallest units. *)
Lemma parseAmount_one (coinDecimals : Z) :
  0 <= coinDecimals -> Sample.parseAmount "1" coinDecimals = 10 ^ coinDecimals.
Proof.
  intros Hd. unfold Sample.parseAmount.
  cbn [Sample.split_point Ascii.eqb Bool.eqb String.length Sample.digits_value
       Sample.digit_value Nat.add Nat.eqb Z.of_nat].
  change (Sample.digit_value "1") with (Some 1).
  cbn [Sample.digits_value Nat.add Nat.eqb String.length Z.of_nat].
  destruct (0 <=? coinDecimals) eqn:Hle; [ | apply Z.leb_gt in Hle; lia ].
  lia.
Qed.

Section Properties.

Context {imports : Imports}.

Implicit Types (i : Inputs) (w : World) (values v : FormValues).

(** *** Runs of the mutations and of the handler *)

Lemma run_bind {A B : Type} w (p : Prog A) (f : A -> Prog B) :
  run w (bind p f) =
  ((fst (run w p) ++ fst (run w (f (snd (run w p)))))%list,
   snd (run w (f (snd (run w p))))).
Proof.
  induction p as [a | e k IH | c k IH]; simpl.
  - now destruct (run w (f a)).
  - rewrite IH. now destruct (run w k).
  - rewrite IH. now destruct (run w (k (w c))).
Qed.

Lemma stakeToken_run i w (v : StakeVariables) :
  mutation_run w (trace w (stakeToken i v)) (result w (stakeToken i v)).
Proof.
  unfold trace, result, stakeToken.
  destruct (falsy (stake_validatorAddress v) || (stake_amount v =? 0)
            || falsy (tokenTypeArg v)); [ destruct (signer i); apply run_guard | ].
  destruct (signer i) as [f | ]; [ | apply run_guard ].
  cbn. destruct (createStakeTransaction (stake_amount v) (stake_validatorAddress v))
    as [t | e]; cbn.
  - destruct (w (call_signer f)) as [s | e] eqn:Hs; cbn.
    + destruct (w (signAndExecuteTransaction s t signing_options)) eqn:Hb; cbn;
        now apply run_broadcast with (s := s).
    + now apply run_signer.
  - apply run_builder.
Qed.

Lemma unStakeToken_run i w (id : string) :
  mutation_run w (trace w (unStakeToken i id)) (result w (unStakeToken i id)).
Proof.
  unfold trace, result, unStakeToken.
  destruct (falsy id); [ destruct (signer i); apply run_guard | ].
  destruct (signer i) as [f | ]; [ | apply run_guard ].
  cbn. destruct (createUnstakeTransaction id) as [t | e]; cbn.
  - destruct (w (call_signer f)) as [s | e] eqn:Hs; cbn.
    + destruct (w (signAndExecuteTransaction s t signing_options)) eqn:Hb; cbn;
        now apply run_broadcast with (s := s).
    + now apply run_signer.
  - apply run_builder.
Qed.

Lemma submitted_run i w values (m : Prog (outcome Response)) :
  submitted i values = Some m ->
  mutation_run w (trace w m) (result w m).
Proof.
  unfold submitted, mutateAsync.
  destruct (coinType i), (validatorAddress i); try discriminate.
  destruct (unstake i).
  - destruct (stakeData i) as [sd | ], (stakeSuiIdParams i) as [id | ];
      try discriminate.
    destruct (falsy id || is_Pending (status sd)); [ discriminate | ].
    intros [= <-]. apply unStakeToken_run.
  - intros [= <-]. apply stakeToken_run.
Qed.

(** The continuation of the handler after its mutation call. *)
Lemma after_mutation_run i w (m : Prog (outcome Response)) :
  run w
    (async_fn
       (try_catch
          (txDigest <-?
             (response <-? awaited m ;;
              Ret (Normal (getTransactionDigest response))) ;;
           emit invalidateQueries ["system"; "state"] ;;
           emit invalidateQueries ["validator"] ;;
           emit resetForm ;;
           emit navigate (receipt_url txDigest) ;;
           Ret (Normal tt))
          (fun e => emit failure_toast (unstake i) e ;; Ret (Normal tt)))) =
  match result w m with
  | Returns response =>
      ((trace w m ++
        [Did (invalidateQueries ["system"; "state"]);
         Did (invalidateQueries ["validator"]);
         Did resetForm;
         Did (navigate (receipt_url (getTransactionDigest response)))])%list,
       Returns tt)
  | Throws e =>
      ((trace w m ++ [Did (failure_toast (unstake i) e)])%list, Returns tt)
  end.
Proof.
  unfold async_fn, try_catch, bind_completion, awaited, trace, result.
  rewrite !run_bind.
  destruct (run w m) as [l [response | e]]; cbn; now rewrite ?app_nil_r.
Qed.

Lemma onHandleSubmit_run i w values :
  run w (onHandleSubmit i values) =
  match submitted i values with
  | None => ([], Returns tt)
  | Some m =>
      match result w m with
      | Returns response =>
          ((trace w m ++
            [Did (invalidateQueries ["system"; "state"]);
             Did (invalidateQueries ["validator"]);
             Did resetForm;
             Did (navigate (receipt_url (getTransactionDigest response)))])%list,
           Returns tt)
      | Throws e =>
          ((trace w m ++ [Did (failure_toast (unstake i) e)])%list, Returns tt)
      end
  end.
Proof.
  unfold onHandleSubmit, submitted.
  destruct (coinType i) as [ct | ], (validatorAddress i) as [va | ];
    try reflexivity.
  destruct (unstake i) eqn:Hu.
  - destruct (stakeData i) as [sd | ], (stakeSuiIdParams i) as [id | ];
      try reflexivity.
    destruct (falsy id || is_Pending (status sd)); [ reflexivity | ].
    pose proof (after_mutation_run i w (mutateAsync (unStakeToken i) id)) as R.
    rewrite Hu in R. exact R.
  - pose proof (after_mutation_run i w
                  (mutateAsync (stakeToken i)
                     {| stake_amount := parseAmount (amount values) (coinDecimals i);
                        tokenTypeArg := ct;
                        stake_validatorAddress := va |})) as R.
    rewrite Hu in R. exact R.
Qed.

Lemma submitted_None i values :
  submitted i values = None <-> returns_early i = true.
Proof.
  unfold submitted, returns_early, nullish_or_empty.
  destruct (coinType i), (validatorAddress i); cbn; try tauto.
  destruct (unstake i); cbn; [ | split; discriminate ].
  destruct (stakeData i) as [sd | ], (stakeSuiIdParams i) as [id | ]; cbn;
    rewrite ?orb_true_r; try tauto.
  rewrite (orb_comm (is_Pending (status sd))).
  destruct (falsy id || is_Pending (status sd)); split; congruence.
Qed.

(** *** What a mutation's run can contain *)

Lemma mutation_run_effects w l r :
  mutation_run w l r ->
  invalidated l = [] /\ navigations l = [] /\ toasts l = [] /\ resets l = 0%nat.
Proof. destruct 1; cbn; auto. Qed.

Lemma mutation_run_awaits w l r :
  mutation_run w l r -> (awaits l <= 2)%nat.
Proof. destruct 1; cbn; lia. Qed.

Lemma mutation_run_Returns w l response :
  mutation_run w l (Returns response) ->
  exists name validator f s t,
    l = [Did (trackEvent name validator); Did (Sentry_startTransaction "stake");
         Called (call_signer f);
         Called (signAndExecuteTransaction s t signing_options);
         Did sentryTransaction_finish]
    /\ w (call_signer f) = Returns s
    /\ w (signAndExecuteTransaction s t signing_options) = Returns response.
Proof.
  inversion 1; subst.
  exists name, validator, f, s, t. auto.
Qed.

Lemma mutation_run_rejected_call w l r c e :
  mutation_run w l r -> In (Called c) l -> w c = Throws e -> r = Throws e.
Proof.
  destruct 1 as [ | | ? ? f e' Hf | ? ? f s t r Hf Hb ]; cbn; intros Hin Hc.
  - contradiction.
  - repeat (destruct Hin as [Hin | Hin]; try discriminate). contradiction.
  - repeat (destruct Hin as [Hin | Hin]; try discriminate); try contradiction.
    injection Hin as <-. cbn in Hc. congruence.
  - repeat (destruct Hin as [Hin | Hin]; try discriminate); try contradiction.
    + injection Hin as <-. cbn in Hc. congruence.
    + injection Hin as <-. cbn in Hc. congruence.
Qed.

Lemma mutation_run_settled_broadcast w l r s t o response :
  mutation_run w l r ->
  In (Called (signAndExecuteTransaction s t o)) l ->
  w (signAndExecuteTransaction s t o) = Returns response ->
  r = Returns response.
Proof.
  destruct 1 as [ | | ? ? f e' Hf | ? ? f s' t' r Hf Hb ]; cbn; intros Hin Hc.
  - contradiction.
  - repeat (destruct Hin as [Hin | Hin]; try discriminate). contradiction.
  - repeat (destruct Hin as [Hin | Hin]; try discriminate); contradiction.
  - repeat (destruct Hin as [Hin | Hin]; try discriminate); try contradiction.
    injection Hin as <- <- <-. cbn in Hc. congruence.
Qed.

(** A call recorded in the handler's trace was made by its mutation. *)
Lemma called_by_mutation i w values c :
  In (Called c) (trace w (onHandleSubmit i values)) ->
  exists m, submitted i values = Some m /\ In (Called c) (trace w m).
Proof.
  unfold trace at 1. rewrite onHandleSubmit_run.
  destruct (submitted i values) as [m | ]; [ | contradiction ].
  intros Hin. exists m. split; [ reflexivity | ].
  destruct (result w m); cbn in Hin; apply in_app_or in Hin;
    destruct Hin as [Hin | Hin]; auto; cbn in Hin;
    repeat (destruct Hin as [Hin | Hin]; try discriminate); contradiction.
Qed.

(** *** The form *)

Ltac crunch :=
  repeat (cbn;
          match goal with
          | |- True => exact I
          | |- forall _, _ => intro
          | |- context [match ?x with _ => _ end] => destruct x
          end).

Lemma onHandleSubmit_reset_last i values : reset_last (onHandleSubmit i values).
Proof.
  unfold onHandleSubmit, mutateAsync, stakeToken, unStakeToken, async_fn,
    try_catch, bind_completion, bind_outcome, try_finally, awaited, await,
    perform, failure_toast.
  crunch.
Qed.

Lemma advance_no_await (p : Prog (outcome unit)) others (st : FormState) :
  no_await p -> inflight (advance p others st) = others.
Proof.
  revert st. induction p as [a | e k IH | c k IH]; cbn; intros st Hp.
  - reflexivity.
  - now apply IH.
  - contradiction.
Qed.

Lemma advance_single_flight (p : Prog (outcome unit)) (st : FormState) :
  reset_last p -> isSubmitting (formik st) = true ->
  single_flight (advance p [] st).
Proof.
  revert st. induction p as [a | e k IH | c k IH]; intros st Hp Hs.
  - exact I.
  - destruct e; cbn in Hp |- *;
      try (apply IH; [ exact Hp | exact Hs ]).
    unfold single_flight. now rewrite advance_no_await.
  - cbn. split; [ exact Hs | exact Hp ].
Qed.

Lemma submit_enabled_idle i (f : FormikProps) :
  submit_enabled i f = true -> isSubmitting f = false /\ isValid f = true.
Proof.
  unfold submit_enabled, StakingCard.
  destruct (coinType i), (validatorAddress i); try discriminate.
  destruct (_ || _ || _); [ discriminate | ]. cbn.
  destruct (isValid f), (isSubmitting f); cbn;
    rewrite ?andb_false_r; try discriminate; auto.
Qed.

(** The button depends on the form state through [isValid] and
    [isSubmitting] only. *)
Lemma submit_enabled_ext i (f g : FormikProps) :
  isValid f = isValid g -> isSubmitting f = isSubmitting g ->
  submit_enabled i f = submit_enabled i g.
Proof.
  unfold submit_enabled, StakingCard. intros Hv Hs.
  destruct (coinType i), (validatorAddress i); try reflexivity.
  destruct (_ || _ || _); [ reflexivity | ]. cbn. now rewrite Hv, Hs.
Qed.

Lemma form_step_single_flight i w (st : FormState) ev :
  single_flight st -> single_flight (form_step i w st ev).
Proof.
  intros Hst. destruct ev as [ | n | text | valid error ]; cbn.
  - destruct (submit_enabled i (formik st)) eqn:Hen; [ | exact Hst ].
    apply submit_enabled_idle in Hen. destruct Hen as [Hs _].
    unfold submitForm, single_flight in *.
    destruct (inflight st) as [ | p [ | q rest ]].
    + apply (advance_single_flight _ _ (onHandleSubmit_reset_last i (values st))).
      reflexivity.
    + destruct Hst. congruence.
    + contradiction.
  - unfold single_flight in Hst.
    destruct (inflight st) as [ | p [ | q rest ]] eqn:Hfl.
    + destruct n; cbn; unfold single_flight; now rewrite Hfl.
    + destruct n as [ | n ]; cbn.
      * destruct p as [a | e k | c k];
          try (unfold single_flight; now rewrite Hfl).
        destruct Hst as [Hs Hp]. apply advance_single_flight; [ apply Hp | exact Hs ].
      * destruct n; cbn; unfold single_flight; now rewrite Hfl.
    + contradiction.
  - exact Hst.
  - unfold single_flight in *. cbn. exact Hst.
Qed.

Lemma form_run_single_flight i w evs (st : FormState) :
  single_flight st -> single_flight (form_run i w st evs).
Proof.
  revert st. induction evs as [ | ev evs IH ]; intros st Hst; cbn.
  - exact Hst.
  - apply IH. now apply form_step_single_flight.
Qed.

(** A click on the button while a submission is in flight changes
    nothing. *)
Lemma click_while_inflight i w (st : FormState) :
  single_flight st -> inflight st <> [] ->
  form_step i w st click_submit = st.
Proof.
  intros Hst Hne. cbn.
  destruct (submit_enabled i (formik st)) eqn:Hen; [ | reflexivity ].
  apply submit_enabled_idle in Hen. destruct Hen as [Hs _].
  unfold single_flight in Hst.
  destruct (inflight st) as [ | p [ | q rest ]].
  - contradiction.
  - destruct Hst. congruence.
  - contradiction.
Qed.

Lemma settles_idle i w n (st : FormState) :
  inflight st = [] -> form_run i w st (repeat (settles 0) n) = st.
Proof.
  intros Hfl. induction n as [ | n IH ]; cbn; [ reflexivity | ].
  now rewrite Hfl.
Qed.

Lemma inflight_complete w (p : Prog (outcome unit)) (st : FormState) :
  inflight (complete w p st) = [].
Proof.
  revert st. induction p as [a | e k IH | c k IH]; intros st; cbn; auto.
Qed.

(** Settling the awaited call as often as the run awaits one brings the
    submission to its end. *)
Lemma settles_complete i w (p : Prog (outcome unit)) n (st : FormState) :
  (awaits (trace w p) <= n)%nat ->
  form_run i w (advance p [] st) (repeat (settles 0) n) = complete w p st.
Proof.
  revert n st. induction p as [a | e k IH | c k IH]; intros n st Hn.
  - now apply settles_idle.
  - cbn. apply IH. unfold trace in *. cbn in Hn.
    destruct (run w k). exact Hn.
  - unfold trace in Hn. cbn in Hn.
    destruct (run w (k (w c))) as [l a] eqn:Hr. cbn in Hn.
    destruct n as [ | n ]; [ lia | ].
    cbn. apply IH. unfold trace. rewrite Hr. cbn. unfold awaits in Hn. lia.
Qed.

Lemma history_complete w (p : Prog (outcome unit)) (st : FormState) :
  history (complete w p st) = (history st ++ trace w p)%list.
Proof.
  revert st. unfold trace.
  induction p as [a | e k IH | c k IH]; intros st; cbn.
  - now rewrite app_nil_r.
  - rewrite IH. destruct (run w k) as [l a]. cbn.
    destruct e; cbn; now rewrite <- app_assoc.
  - rewrite IH. destruct (run w (k (w c))) as [l a]. cbn.
    now rewrite <- app_assoc.
Qed.

Lemma isSubmitting_complete w (p : Prog (outcome unit)) (st : FormState) :
  isSubmitting (formik (complete w p st)) = false.
Proof.
  revert st. induction p as [a | e k IH | c k IH]; intros st; cbn; auto.
Qed.

Lemma isValid_form_effect e (st : FormState) :
  isValid (formik (form_effect e st)) = isValid (formik st).
Proof. now destruct e. Qed.

Lemma isValid_complete w (p : Prog (outcome unit)) (st : FormState) :
  isValid (formik (complete w p st)) = isValid (formik st).
Proof.
  revert st. induction p as [a | e k IH | c k IH]; intros st; cbn.
  - reflexivity.
  - now rewrite IH, isValid_form_effect.
  - now rewrite IH.
Qed.

(** The values of the form survive a submission that never calls
    [resetForm], and are the initial ones after one that does. *)
Lemma values_complete w (p : Prog (outcome unit)) (st : FormState) :
  values (complete w p st) =
  if (resets (trace w p) =? 0)%nat then values st else initialValues.
Proof.
  assert (Hinit : forall q st', values st' = initialValues ->
                    values (complete w q st') = initialValues).
  { induction q as [a | e k IH | c k IH]; intros st' Hv; cbn; auto.
    apply IH. now destruct e. }
  revert st. unfold trace, resets.
  induction p as [a | e k IH | c k IH]; intros st; cbn.
  - reflexivity.
  - destruct (run w k) as [l a] eqn:Hr. cbn in IH |- *.
    destruct e; cbn; try (now rewrite IH).
    now apply Hinit.
  - rewrite IH. now destruct (run w (k (w c))).
Qed.

Lemma awaits_onHandleSubmit i w values :
  (awaits (trace w (onHandleSubmit i values)) <= 2)%nat.
Proof.
  unfold trace at 1. rewrite onHandleSubmit_run.
  destruct (submitted i values) as [m | ] eqn:Hm; [ | cbn; lia ].
  pose proof (mutation_run_awaits (submitted_run i w values Hm)) as Hle.
  unfold awaits in *.
  destruct (result w m); cbn; rewrite filter_app, length_app; cbn; lia.
Qed.

(** A click that is accepted, followed by the settlement of the calls the
    handler awaits. *)
Lemma click_then_settle i w (st : FormState) :
  inflight st = [] -> submit_enabled i (formik st) = true ->
  form_run i w st [click_submit; settles 0; settles 0] =
  complete w (onHandleSubmit i (values st))
    {| values := values st;
       formik := {| isSubmitting := true; isValid := isValid (formik st);
                    errors_amount := errors_amount (formik st);
                    touched_amount := true |};
       inflight := []; history := history st |}.
Proof.
  intros Hfl Hen.
  change (form_run i w st [click_submit; settles 0; settles 0])
    with (form_run i w (form_step i w st click_submit) (repeat (settles 0) 2)).
  cbn [form_step]. rewrite Hen. unfold submitForm. rewrite Hfl.
  apply settles_complete, awaits_onHandleSubmit.
Qed.

(** *** Successful and failed submissions *)

Lemma successful_run i w values s t o (response : Response) :
  In (Called (signAndExecuteTransaction s t o)) (trace w (onHandleSubmit i values)) ->
  w (signAndExecuteTransaction s t o) = Returns response ->
  exists m,
    submitted i values = Some m
    /\ mutation_run w (trace w m) (Returns response)
    /\ run w (onHandleSubmit i values) =
       ((trace w m ++
         [Did (invalidateQueries ["system"; "state"]);
          Did (invalidateQueries ["validator"]);
          Did resetForm;
          Did (navigate (receipt_url (getTransactionDigest response)))])%list,
        Returns tt).
Proof.
  intros Hin Hw.
  destruct (called_by_mutation _ _ _ _ Hin) as (m & Hm & Hinm).
  pose proof (submitted_run i w values Hm) as Hrun.
  assert (Hres : result w m = Returns response)
    by (eapply mutation_run_settled_broadcast; eassumption).
  exists m. split; [ exact Hm | ]. split.
  - now rewrite <- Hres.
  - rewrite onHandleSubmit_run, Hm, Hres. reflexivity.
Qed.

Lemma failed_run i w values c e :
  In (Called c) (trace w (onHandleSubmit i values)) ->
  w c = Throws e ->
  exists m,
    submitted i values = Some m
    /\ mutation_run w (trace w m) (Throws e)
    /\ run w (onHandleSubmit i values) =
       ((trace w m ++ [Did (failure_toast (unstake i) e)])%list, Returns tt).
Proof.
  intros Hin Hw.
  destruct (called_by_mutation _ _ _ _ Hin) as (m & Hm & Hinm).
  pose proof (submitted_run i w values Hm) as Hrun.
  assert (Hres : result w m = Throws e)
    by (eapply mutation_run_rejected_call; eassumption).
  exists m. split; [ exact Hm | ]. split.
  - now rewrite <- Hres.
  - rewrite onHandleSubmit_run, Hm, Hres. reflexivity.
Qed.

Lemma invalidated_app (l l' : list Entry) :
  invalidated (l ++ l') = (invalidated l ++ invalidated l')%list.
Proof. apply flat_map_app. Qed.

Lemma navigations_app (l l' : list Entry) :
  navigations (l ++ l') = (navigations l ++ navigations l')%list.
Proof. apply flat_map_app. Qed.

Lemma toasts_app (l l' : list Entry) :
  toasts (l ++ l') = (toasts l ++ toasts l')%list.
Proof. apply flat_map_app. Qed.

Lemma resets_app (l l' : list Entry) :
  resets (l ++ l') = (resets l + resets l')%nat.
Proof. unfold resets. now rewrite filter_app, length_app. Qed.

Lemma append_cancel_l (a b c : string) : (a ++ b = a ++ c)%string -> b = c.
Proof.
  induction a as [ | x a IH ]; cbn; intros H; [ exact H | ].
  injection H as H. now apply IH.
Qed.

(** *** Claims about the outcome of a submission *)

(** C1.  For every submission whose broadcast succeeds, in stake mode and in
    unstake mode alike, the handler navigates exactly once, to "/receipt"
    with the query [txdigest] set to the digest of the response and [from]
    set to the literal "stake"; it never navigates to the receipt of that
    digest with [from] set to "unstake". *)
Theorem receipt_navigation_says_stake i w values s t o (response : Response) :
  In (Called (signAndExecuteTransaction s t o)) (trace w (onHandleSubmit i values)) ->
  w (signAndExecuteTransaction s t o) = Returns response ->
  navigations (trace w (onHandleSubmit i values)) =
    [ "/receipt?" ++
      URLSearchParams_toString
        [("txdigest", getTransactionDigest response); ("from", "stake")] ]
  /\ ~ In ("/receipt?" ++
           URLSearchParams_toString
             [("txdigest", getTransactionDigest response); ("from", "unstake")])
          (navigations (trace w (onHandleSubmit i values))).
Proof.
  intros Hin Hw.
  destruct (successful_run i w values s t o Hin Hw) as (m & _ & Hrun & Heq).
  apply mutation_run_effects in Hrun. destruct Hrun as (_ & Hnav & _).
  assert (Hn : navigations (trace w (onHandleSubmit i values)) =
               [receipt_url (getTransactionDigest response)]).
  { unfold trace at 1. rewrite Heq. cbn [fst].
    rewrite navigations_app, Hnav. reflexivity. }
  split; [ exact Hn | ].
  rewrite Hn. intros [H | []]. unfold receipt_url in H.
  apply append_cancel_l in H. unfold URLSearchParams_toString in H. cbn in H.
  injection H as H. apply append_cancel_l in H. discriminate H.
Qed.

(** C6.  A submission whose broadcast succeeds invalidates exactly the two
    query keys ["system","state"] and ["validator"], calls [resetForm] once
    and navigates to the receipt of the digest.  Nothing is awaited after the
    broadcast: the invalidations are issued and not waited for, so the
    handler is finished, with the form back at its initial values, as soon
    as the broadcast has settled. *)
Theorem success_invalidates_resets_navigates i w v s t o
  (response : Response) :
  In (Called (signAndExecuteTransaction s t o)) (trace w (onHandleSubmit i v)) ->
  w (signAndExecuteTransaction s t o) = Returns response ->
  (exists name validator f,
     trace w (onHandleSubmit i v) =
     [Did (trackEvent name validator); Did (Sentry_startTransaction "stake");
      Called (call_signer f);
      Called (signAndExecuteTransaction s t o);
      Did sentryTransaction_finish;
      Did (invalidateQueries ["system"; "state"]);
      Did (invalidateQueries ["validator"]);
      Did resetForm;
      Did (navigate (receipt_url (getTransactionDigest response)))])
  /\ invalidated (trace w (onHandleSubmit i v)) =
       [["system"; "state"]; ["validator"]]
  /\ resets (trace w (onHandleSubmit i v)) = 1%nat
  /\ navigations (trace w (onHandleSubmit i v)) =
       [receipt_url (getTransactionDigest response)]
  /\ toasts (trace w (onHandleSubmit i v)) = []
  /\ result w (onHandleSubmit i v) = Returns tt
  /\ forall st : FormState,
       inflight st = [] -> submit_enabled i (formik st) = true ->
       values st = v ->
       values (form_run i w st [click_submit; settles 0; settles 0]) = initialValues
       /\ inflight (form_run i w st [click_submit; settles 0; settles 0]) = []
       /\ history (form_run i w st [click_submit; settles 0; settles 0]) =
          (history st ++ trace w (onHandleSubmit i v))%list.
Proof.
  intros Hin Hw.
  destruct (successful_run i w v s t o Hin Hw) as (m & _ & Hrun & Heq).
  destruct (mutation_run_Returns Hrun) as (name & validator & f & s' & t' & Hl & _ & _).
  assert (Htr : trace w (onHandleSubmit i v) =
     [Did (trackEvent name validator); Did (Sentry_startTransaction "stake");
      Called (call_signer f);
      Called (signAndExecuteTransaction s t o);
      Did sentryTransaction_finish;
      Did (invalidateQueries ["system"; "state"]);
      Did (invalidateQueries ["validator"]);
      Did resetForm;
      Did (navigate (receipt_url (getTransactionDigest response)))]).
  { unfold trace at 1. rewrite Heq. cbn [fst]. rewrite Hl. cbn.
    unfold trace in Hin at 1. rewrite Heq in Hin. cbn [fst] in Hin.
    rewrite Hl in Hin. cbn in Hin.
    repeat (destruct Hin as [Hin | Hin]; try discriminate); try contradiction.
    injection Hin as <- <- <-. reflexivity. }
  split; [ now exists name, validator, f | ].
  rewrite Htr. repeat (split; [ reflexivity | ]).
  split; [ unfold result; now rewrite Heq | ].
  intros st Hfl Hen <-.
  rewrite (click_then_settle _ _ _ Hfl Hen).
  rewrite values_complete, inflight_complete, history_complete, Htr.
  repeat split.
Qed.

(** C3.  When a call the submission awaits is rejected (the signer cannot
    be resolved, or signing-and-broadcasting fails), the handler invalidates
    no query, does not navigate and does not reset the form; it shows the
    failure and returns normally.  The form then holds the values it held,
    has no submission in flight, is not submitting, and its button accepts a
    new click. *)
Theorem failed_broadcast_commits_nothing i w v c e :
  In (Called c) (trace w (onHandleSubmit i v)) ->
  w c = Throws e ->
  invalidated (trace w (onHandleSubmit i v)) = []
  /\ navigations (trace w (onHandleSubmit i v)) = []
  /\ resets (trace w (onHandleSubmit i v)) = 0%nat
  /\ (exists before,
        trace w (onHandleSubmit i v) =
        (before ++ [Did (failure_toast (unstake i) e)])%list
        /\ toasts before = [])
  /\ result w (onHandleSubmit i v) = Returns tt
  /\ forall st : FormState,
       inflight st = [] -> submit_enabled i (formik st) = true ->
       values st = v ->
       values (form_run i w st [click_submit; settles 0; settles 0]) = v
       /\ inflight (form_run i w st [click_submit; settles 0; settles 0]) = []
       /\ isSubmitting
            (formik (form_run i w st [click_submit; settles 0; settles 0])) = false
       /\ submit_enabled i
            (formik (form_run i w st [click_submit; settles 0; settles 0])) = true.
Proof.
  intros Hin Hw.
  destruct (failed_run i w v c Hin Hw) as (m & _ & Hrun & Heq).
  apply mutation_run_effects in Hrun.
  destruct Hrun as (Hinv & Hnav & Htoast & Hreset).
  assert (Htr : trace w (onHandleSubmit i v) =
                (trace w m ++ [Did (failure_toast (unstake i) e)])%list)
    by (unfold trace at 1; now rewrite Heq).
  assert (Hr0 : resets (trace w (onHandleSubmit i v)) = 0%nat)
    by (rewrite Htr, resets_app, Hreset; reflexivity).
  split; [ rewrite Htr, invalidated_app, Hinv; reflexivity | ].
  split; [ rewrite Htr, navigations_app, Hnav; reflexivity | ].
  split; [ exact Hr0 | ].
  split; [ exists (trace w m); auto | ].
  split; [ unfold result; now rewrite Heq | ].
  intros st Hfl Hen <-.
  rewrite (click_then_settle _ _ _ Hfl Hen).
  rewrite values_complete, inflight_complete, isSubmitting_complete, Hr0.
  repeat (split; [ reflexivity | ]).
  destruct (submit_enabled_idle _ _ Hen) as [Hs Hv].
  rewrite <- Hen. apply submit_enabled_ext.
  - now rewrite isValid_complete.
  - now rewrite isSubmitting_complete, Hs.
Qed.

(** *** Claims about the guards *)

Lemma unStakeToken_broadcasts i w (id : string) (t : Transaction) :
  In t (broadcasts (trace w (unStakeToken i id))) ->
  createUnstakeTransaction id = Returns t.
Proof.
  unfold trace, unStakeToken.
  destruct (falsy id); [ destruct (signer i); contradiction | ].
  destruct (signer i) as [f | ]; [ | contradiction ].
  cbn. destruct (createUnstakeTransaction id) as [t' | e]; cbn;
    [ | contradiction ].
  destruct (w (call_signer f)) as [s | e]; cbn; [ | contradiction ].
  destruct (w (signAndExecuteTransaction s t' signing_options)); cbn;
    intros [<- | []]; reflexivity.
Qed.

Lemma stakeToken_broadcasts i w (v : StakeVariables) (t : Transaction) :
  In t (broadcasts (trace w (stakeToken i v))) ->
  createStakeTransaction (stake_amount v) (stake_validatorAddress v) = Returns t.
Proof.
  unfold trace, stakeToken.
  destruct (falsy (stake_validatorAddress v) || (stake_amount v =? 0)
            || falsy (tokenTypeArg v)); [ destruct (signer i); contradiction | ].
  destruct (signer i) as [f | ]; [ | contradiction ].
  cbn. destruct (createStakeTransaction _ _) as [t' | e]; cbn;
    [ | contradiction ].
  destruct (w (call_signer f)) as [s | e]; cbn; [ | contradiction ].
  destruct (w (signAndExecuteTransaction s t' signing_options)); cbn;
    intros [<- | []]; reflexivity.
Qed.

Lemma broadcasts_onHandleSubmit i w values :
  broadcasts (trace w (onHandleSubmit i values)) =
  match submitted i values with
  | Some m => broadcasts (trace w m)
  | None => []
  end.
Proof.
  unfold trace at 1. rewrite onHandleSubmit_run.
  destruct (submitted i values) as [m | ]; [ | reflexivity ].
  unfold broadcasts.
  destruct (result w m); cbn [fst]; rewrite flat_map_app; cbn;
    now rewrite app_nil_r.
Qed.

(** X4.  In stake mode what is broadcast is the stake transaction built
    from the converted amount and the validator address of the view. *)
Lemma stake_broadcasts_converted_amount i w values (t : Transaction) :
  unstake i = false ->
  In t (broadcasts (trace w (onHandleSubmit i values))) ->
  exists validatorAddress_,
    validatorAddress i = Some validatorAddress_
    /\ createStakeTransaction (parseAmount (amount values) (coinDecimals i))
         validatorAddress_ = Returns t.
Proof.
  intros Hu. rewrite broadcasts_onHandleSubmit. unfold submitted. rewrite Hu.
  destruct (coinType i) as [ct | ], (validatorAddress i) as [va | ];
    try contradiction.
  intros Hin. exists va. split; [ reflexivity | ].
  exact (stakeToken_broadcasts i w _ t Hin).
Qed.

Lemma returns_early_program i values :
  returns_early i = true -> onHandleSubmit i values = Ret (Returns tt).
Proof.
  unfold returns_early, onHandleSubmit, nullish_or_empty.
  destruct (coinType i), (validatorAddress i); cbn; try reflexivity.
  destruct (unstake i); cbn; [ | discriminate ].
  destruct (stakeData i) as [sd | ]; cbn; [ | reflexivity ].
  destruct (stakeSuiIdParams i) as [id | ]; cbn; [ | reflexivity ].
  destruct (falsy id), (is_Pending (status sd)); cbn;
    try reflexivity; discriminate.
Qed.

(** The button is never enabled in a view whose handler would return at
    one of its guards. *)
Lemma submit_enabled_passes_guards i (f : FormikProps) :
  submit_enabled i f = true -> returns_early i = false.
Proof.
  unfold submit_enabled, StakingCard, returns_early, delegationId, stakeData,
    nullish_or_empty.
  destruct (coinType i), (validatorAddress i); try discriminate.
  destruct (_ || _ || _); [ discriminate | ]. cbn.
  destruct (unstake i); cbn; [ | reflexivity ].
  destruct (allDelegation i) as [ds | ];
    [ | cbn; rewrite !orb_true_r, andb_false_r; discriminate ].
  destruct (stakeSuiIdParams i) as [id | ];
    [ | cbn; rewrite !orb_true_r, andb_false_r; discriminate ].
  destruct (falsy id) eqn:Hid;
    [ cbn; rewrite !orb_true_r, andb_false_r; discriminate | ].
  destruct (getDelegationDataByStakeId ds id) as [sd | ];
    [ | cbn; rewrite !orb_true_r, andb_false_r; discriminate ].
  destruct (is_Pending (status sd));
    [ cbn; rewrite !orb_true_r, andb_false_r; discriminate | ].
  reflexivity.
Qed.

(** C4, as the code has it.  Every invocation of the handler, once the
    calls it awaits have settled, returns normally.  When one of its guards
    fires (no coin type, no validator
    address, or in unstake mode no stake data, no stake identifier or a
    pending position) it returns at once and does nothing at all; otherwise
    it ends in exactly one of a navigation and a failure toast.  The button
    is enabled only in views in which no guard fires. *)
Theorem handler_exits i w values :
  result w (onHandleSubmit i values) = Returns tt
  /\ (if returns_early i
      then onHandleSubmit i values = Ret (Returns tt)
           /\ trace w (onHandleSubmit i values) = []
      else (List.length (navigations (trace w (onHandleSubmit i values)))
            + List.length (toasts (trace w (onHandleSubmit i values))) = 1)%nat)
  /\ forall f : FormikProps,
       submit_enabled i f = true -> returns_early i = false.
Proof.
  split; [ | split ].
  - unfold result. rewrite onHandleSubmit_run.
    destruct (submitted i values) as [m | ]; [ | reflexivity ].
    now destruct (result w m).
  - destruct (returns_early i) eqn:Hre.
    + rewrite (returns_early_program i values Hre). split; reflexivity.
    + unfold trace at 1 2. rewrite onHandleSubmit_run.
      destruct (submitted i values) as [m | ] eqn:Hm.
      * pose proof (submitted_run i w values Hm) as Hrun.
        apply mutation_run_effects in Hrun.
        destruct Hrun as (_ & Hnav & Htoast & _).
        destruct (result w m); cbn [fst];
          rewrite navigations_app, toasts_app, Hnav, Htoast; reflexivity.
      * apply submitted_None in Hm. congruence.
  - apply submit_enabled_passes_guards.
Qed.

(** C5.  In unstake mode the handler does something only for a position
    that is [Active], and what it broadcasts is the withdrawal built from
    the stake identifier of the view.  When the position is missing or
    pending, or the view names no stake identifier, the handler returns at
    once and the button is not enabled, whatever the state of the form. *)
Theorem unstake_only_for_active_position i w values :
  unstake i = true ->
  (trace w (onHandleSubmit i values) <> [] ->
   exists sd, stakeData i = Some sd /\ status sd = Active)
  /\ (forall t, In t (broadcasts (trace w (onHandleSubmit i values))) ->
      exists sd id,
        stakeData i = Some sd /\ status sd = Active
        /\ stakeSuiIdParams i = Some id
        /\ createUnstakeTransaction id = Returns t)
  /\ (stakeData i = None \/ stakeSuiIdParams i = None
      \/ (exists sd, stakeData i = Some sd /\ status sd = Pending) ->
      onHandleSubmit i values = Ret (Returns tt)
      /\ forall f : FormikProps, submit_enabled i f = false).
Proof.
  intros Hu.
  assert (Hactive : forall m, submitted i values = Some m ->
            exists sd id, stakeData i = Some sd /\ status sd = Active
                          /\ stakeSuiIdParams i = Some id
                          /\ m = mutateAsync (unStakeToken i) id).
  { unfold submitted. rewrite Hu.
    destruct (coinType i), (validatorAddress i); try discriminate.
    destruct (stakeData i) as [sd | ]; [ | discriminate ].
    destruct (stakeSuiIdParams i) as [id | ]; [ | discriminate ].
    destruct (falsy id); [ discriminate | ]. cbn.
    destruct (status sd) eqn:Hst; [ discriminate | ].
    intros m [= <-]. exists sd, id. auto. }
  split; [ | split ].
  - intros Hne. destruct (submitted i values) as [m | ] eqn:Hm.
    + destruct (Hactive m eq_refl) as (sd & id & H1 & H2 & _). eauto.
    + apply submitted_None in Hm.
      rewrite (returns_early_program i values Hm) in Hne. now elim Hne.
  - intros t. rewrite broadcasts_onHandleSubmit.
    destruct (submitted i values) as [m | ]; [ | contradiction ].
    destruct (Hactive m eq_refl) as (sd & id & H1 & H2 & H3 & ->).
    intros Hin. exists sd, id. repeat (split; [ assumption | ]).
    exact (unStakeToken_broadcasts i w id t Hin).
  - intros Hcase.
    assert (Hre : returns_early i = true).
    { unfold returns_early. rewrite Hu.
      destruct Hcase as [-> | [Hid | (sd & -> & Hp)]].
      - cbn. now rewrite orb_true_r.
      - rewrite Hid. cbn. now rewrite !orb_true_r.
      - rewrite Hp. cbn. now rewrite orb_true_r. }
    split; [ exact (returns_early_program i values Hre) | ].
    intros f. destruct (submit_enabled i f) eqn:Hen; [ | reflexivity ].
    apply submit_enabled_passes_guards in Hen. congruence.
Qed.

(** C7.  A mutation whose variables lack a field its mode requires
    (stake: validator address, amount, coin type; unstake: stake
    identifier), or that finds no signer, rejects with its
    missing-required-field error and does nothing else: it issues no effect,
    builds no transaction and awaits no call, in any environment. *)
Theorem mutations_reject_missing_fields i :
  (forall v : StakeVariables,
     falsy (stake_validatorAddress v) || (stake_amount v =? 0)
     || falsy (tokenTypeArg v) || is_null (signer i) = true ->
     mutateAsync (stakeToken i) v =
       Ret (Throws (Error "Failed, missing required field"))
     /\ forall w, run w (mutateAsync (stakeToken i) v) =
                  ([], Throws (Error "Failed, missing required field")))
  /\ (forall stakedSuiId : string,
        falsy stakedSuiId || is_null (signer i) = true ->
        mutateAsync (unStakeToken i) stakedSuiId =
          Ret (Throws (Error "Failed, missing required field."))
        /\ forall w, run w (mutateAsync (unStakeToken i) stakedSuiId) =
                     ([], Throws (Error "Failed, missing required field."))).
Proof.
  split.
  - intros v Hv.
    assert (E : mutateAsync (stakeToken i) v =
                Ret (Throws (Error "Failed, missing required field"))).
    { unfold mutateAsync, stakeToken.
      destruct (falsy (stake_validatorAddress v) || (stake_amount v =? 0)
                || falsy (tokenTypeArg v)); [ now destruct (signer i) | ].
      destruct (signer i); [ discriminate Hv | reflexivity ]. }
    split; [ exact E | intros w; now rewrite E ].
  - intros id Hid.
    assert (E : mutateAsync (unStakeToken i) id =
                Ret (Throws (Error "Failed, missing required field."))).
    { unfold mutateAsync, unStakeToken.
      destruct (falsy id); [ now destruct (signer i) | ].
      destruct (signer i); [ discriminate Hid | reflexivity ]. }
    split; [ exact E | intros w; now rewrite E ].
Qed.

(** C8.  When the coin type or the validator address is missing (null, or
    the empty string), the component returns a redirect to "/" in place of
    the form, so there is no button to click; and when one of them is null
    the handler itself returns at once. *)
Theorem missing_parameters_redirect i :
  nullish_or_empty (coinType i) = true
  \/ nullish_or_empty (validatorAddress i) = true ->
  (forall f : FormikProps, StakingCard i f = Navigate "/" true)
  /\ (forall f : FormikProps, submit_enabled i f = false)
  /\ (forall w (st : FormState), form_step i w st click_submit = st)
  /\ (coinType i = None \/ validatorAddress i = None ->
      forall values, onHandleSubmit i values = Ret (Returns tt)).
Proof.
  intros Hmissing.
  assert (Hview : forall f : FormikProps, StakingCard i f = Navigate "/" true).
  { intros f. unfold StakingCard, nullish_or_empty in *.
    destruct (coinType i) as [ct | ], (validatorAddress i) as [va | ];
      try reflexivity.
    destruct Hmissing as [-> | ->]; cbn; now rewrite ?orb_true_r. }
  assert (Hbutton : forall f : FormikProps, submit_enabled i f = false)
    by (intros f; unfold submit_enabled; now rewrite Hview).
  repeat split; auto.
  - intros w st. cbn. now rewrite Hbutton.
  - intros Hnull values. apply returns_early_program.
    unfold returns_early.
    destruct Hnull as [-> | ->]; cbn; now rewrite ?orb_true_r.
Qed.

(** C10.  In unstake mode the handler is the same program whatever amount
    the form holds: it runs the same way in every environment, and what it
    broadcasts is built from the stake identifier of the view. *)
Theorem unstake_ignores_amount i (amount1 amount2 : string) :
  unstake i = true ->
  onHandleSubmit i {| amount := amount1 |} = onHandleSubmit i {| amount := amount2 |}
  /\ (forall w, run w (onHandleSubmit i {| amount := amount1 |}) =
                run w (onHandleSubmit i {| amount := amount2 |}))
  /\ (forall w t,
        In t (broadcasts (trace w (onHandleSubmit i {| amount := amount1 |}))) ->
        exists id, stakeSuiIdParams i = Some id
                   /\ createUnstakeTransaction id = Returns t).
Proof.
  intros Hu.
  assert (E : onHandleSubmit i {| amount := amount1 |} =
              onHandleSubmit i {| amount := amount2 |}).
  { unfold onHandleSubmit. rewrite Hu. reflexivity. }
  split; [ exact E | ]. split; [ intros w; now rewrite E | ].
  intros w t. rewrite broadcasts_onHandleSubmit. unfold submitted. rewrite Hu.
  destruct (coinType i), (validatorAddress i); try contradiction.
  destruct (stakeData i) as [sd | ]; [ | contradiction ].
  destruct (stakeSuiIdParams i) as [id | ]; [ | contradiction ].
  destruct (falsy id || is_Pending (status sd)); [ contradiction | ].
  intros Hin. exists id. split; [ reflexivity | ].
  exact (unStakeToken_broadcasts i w id t Hin).
Qed.

(** The element disables both buttons while Formik reports
    [isSubmitting]. *)
Lemma disabled_while_submitting i (f : FormikProps) (card : Card) :
  StakingCard i f = Form card -> isSubmitting f = true ->
  submit_disabled card = true /\ back_disabled card = true.
Proof.
  unfold StakingCard. intros Hview Hs.
  destruct (coinType i), (validatorAddress i); try discriminate.
  destruct (_ || _ || _); [ discriminate | ].
  injection Hview as <-. cbn. rewrite Hs. now rewrite orb_true_r.
Qed.

(** C2.  In every state the form can reach, a click on the submit button
    while a submission is in flight is ignored: the state, and with it the
    record of effects and calls, is left as it was, so the events that
    follow unfold as if the click had not happened; there is never more
    than one submission in flight, and while there is one the form is
    submitting, which is when the element disables its submit button. *)
Theorem second_submit_is_ignored i w (evs : list FormEvent) :
  inflight (form_run i w mounted evs) <> [] ->
  form_step i w (form_run i w mounted evs) click_submit = form_run i w mounted evs
  /\ (forall rest,
        form_run i w mounted (evs ++ click_submit :: rest) =
        form_run i w mounted (evs ++ rest))
  /\ List.length (inflight (form_run i w mounted evs)) = 1%nat
  /\ isSubmitting (formik (form_run i w mounted evs)) = true
  /\ (forall card,
        StakingCard i (formik (form_run i w mounted evs)) = Form card ->
        submit_disabled card = true).
Proof.
  intros Hne.
  assert (Hsf : single_flight (form_run i w mounted evs))
    by (apply form_run_single_flight; exact I).
  assert (Hclick := click_while_inflight i w _ Hsf Hne).
  split; [ exact Hclick | ]. split.
  - intros rest. unfold form_run in *. rewrite !fold_left_app. cbn [fold_left].
    now rewrite Hclick.
  - unfold single_flight in Hsf.
    destruct (inflight (form_run i w mounted evs)) as [ | p [ | q l ]].
    + now elim Hne.
    + split; [ reflexivity | ]. split; [ apply Hsf | ].
      intros card Hview.
      apply (disabled_while_submitting i _ Hview). apply Hsf.
    + contradiction.
Qed.

(** C9.  The minimum stake is not read from anywhere: it is the amount "1"
    converted with the decimals of the coin, and it is the last argument of
    the validation schema.  With [parseAmount] converting as the spec
    describes, it is 10 to the power of the decimals, that is 1_000_000_000
    for a coin with 9 decimals. *)
Theorem minimum_stake_is_one_coin i :
  (forall text decimals, parseAmount text decimals = Sample.parseAmount text decimals) ->
  minimumStake i = parseAmount "1" (coinDecimals i)
  /\ validationSchema i =
       createValidationSchema (coinBalance i) (coinSymbol i) (coinDecimals i)
         (unstake i) (minimumStake i)
  /\ (0 <= coinDecimals i -> minimumStake i = 10 ^ coinDecimals i)
  /\ (coinDecimals i = 9 ->
      minimumStake i = 1000000000
      /\ validationSchema i =
           createValidationSchema (coinBalance i) (coinSymbol i) 9 (unstake i)
             1000000000).
Proof.
  intros Hparse.
  assert (Hmin : 0 <= coinDecimals i -> minimumStake i = 10 ^ coinDecimals i).
  { intros Hd. unfold minimumStake. rewrite Hparse. now apply parseAmount_one. }
  split; [ reflexivity | ]. split; [ reflexivity | ]. split; [ exact Hmin | ].
  intros H9. unfold validationSchema. rewrite Hmin by lia. rewrite H9.
  split; reflexivity.
Qed.

End Properties.

(* ================================================================== *)
(** ** Further properties of the handler and of the element *)

Section Coverage.

Context {imports : Imports}.

Implicit Types (i : Inputs) (w : World) (values v : FormValues).

Lemma stakeToken_pipeline i w (sv : StakeVariables) :
  run w (stakeToken i sv) =
  pipeline i w
    (falsy (stake_validatorAddress sv) || (stake_amount sv =? 0)
     || falsy (tokenTypeArg sv))
    "Stake" (Some (stake_validatorAddress sv)) "Failed, missing required field"
    (createStakeTransaction (stake_amount sv) (stake_validatorAddress sv)).
Proof.
  unfold stakeToken, pipeline.
  destruct (_ || _ || _); [ now destruct (signer i) | ].
  destruct (signer i) as [f | ]; [ | reflexivity ].
  cbn. destruct (createStakeTransaction _ _) as [t | e]; cbn; [ | reflexivity ].
  destruct (w (call_signer f)) as [s | e]; cbn; [ | reflexivity ].
  now destruct (w (signAndExecuteTransaction s t signing_options)).
Qed.

Lemma unStakeToken_pipeline i w (id : string) :
  run w (unStakeToken i id) =
  pipeline i w (falsy id) "Unstake" None "Failed, missing required field."
    (createUnstakeTransaction id).
Proof.
  unfold unStakeToken, pipeline.
  destruct (falsy id); [ now destruct (signer i) | ].
  destruct (signer i) as [f | ]; [ | reflexivity ].
  cbn. destruct (createUnstakeTransaction id) as [t | e]; cbn; [ | reflexivity ].
  destruct (w (call_signer f)) as [s | e]; cbn; [ | reflexivity ].
  now destruct (w (signAndExecuteTransaction s t signing_options)).
Qed.

(** The run of the handler, written out by mode. *)
Lemma onHandleSubmit_stake i w values (ct va : string) :
  coinType i = Some ct -> validatorAddress i = Some va -> unstake i = false ->
  run w (onHandleSubmit i values) =
  settle_submission i
    (pipeline i w
       (falsy va || (parseAmount (amount values) (coinDecimals i) =? 0) || falsy ct)
       "Stake" (Some va) "Failed, missing required field"
       (createStakeTransaction (parseAmount (amount values) (coinDecimals i)) va)).
Proof.
  intros Hc Ha Hu. rewrite onHandleSubmit_run. unfold submitted.
  rewrite Hc, Ha, Hu. unfold mutateAsync, trace, result, settle_submission.
  rewrite stakeToken_pipeline, ?Hu. reflexivity.
Qed.

Lemma onHandleSubmit_unstake i w values (id : string) :
  unstake i = true -> returns_early i = false -> stakeSuiIdParams i = Some id ->
  run w (onHandleSubmit i values) =
  settle_submission i
    (pipeline i w (falsy id) "Unstake" None "Failed, missing required field."
       (createUnstakeTransaction id)).
Proof.
  intros Hu Hre Hid. rewrite onHandleSubmit_run.
  destruct (submitted i values) as [m | ] eqn:Hm;
    [ | apply submitted_None in Hm; congruence ].
  unfold submitted in Hm. rewrite Hu, Hid in Hm.
  destruct (coinType i), (validatorAddress i); try discriminate.
  destruct (stakeData i) as [sd | ]; [ | discriminate ].
  destruct (falsy id || is_Pending (status sd)); [ discriminate | ].
  injection Hm as <-. unfold mutateAsync, trace, result, settle_submission.
  rewrite unStakeToken_pipeline, ?Hu. reflexivity.
Qed.

(** Every run of the handler is an early return or the settlement of one
    run of the shared mutation body. *)
Lemma onHandleSubmit_cases i w values :
  (returns_early i = true /\ run w (onHandleSubmit i values) = ([], Returns tt))
  \/ (returns_early i = false
      /\ exists guard msg built,
           run w (onHandleSubmit i values) =
           settle_submission i
             (pipeline i w guard
                (if unstake i then "Unstake" else "Stake")
                (if unstake i then None else validatorAddress i)
                msg built)).
Proof.
  destruct (returns_early i) eqn:Hre.
  - left. split; [ reflexivity | ].
    now rewrite (returns_early_program i values Hre).
  - right. split; [ reflexivity | ].
    destruct (unstake i) eqn:Hu.
    + destruct (stakeSuiIdParams i) as [id | ] eqn:Hid.
      * do 3 eexists. eapply onHandleSubmit_unstake; eassumption.
      * unfold returns_early in Hre. rewrite Hu, Hid in Hre. cbn in Hre.
        rewrite !orb_true_r in Hre. discriminate.
    + unfold returns_early in Hre. rewrite Hu in Hre.
      destruct (coinType i) as [ct | ] eqn:Hc; [ | discriminate ].
      destruct (validatorAddress i) as [va | ] eqn:Ha; [ | discriminate ].
      do 3 eexists. eapply onHandleSubmit_stake; eassumption.
Qed.

Ltac pipeline_cases i w guard built :=
  unfold settle_submission, pipeline;
  destruct guard;
  [ destruct (signer i)
  | destruct (signer i) as [f | ];
    [ destruct built as [t | e];
      [ destruct (w (call_signer f)) as [s | e] eqn:Hs;
        [ destruct (w (signAndExecuteTransaction s t signing_options))
            as [r | e] eqn:Hb
        | ]
      | ]
    | ] ];
  cbn.

Ltac in_cases H :=
  repeat (destruct H as [H | H]; try discriminate H); try contradiction.

Lemma pipeline_sentry i w guard name validator msg built :
  let tr := fst (settle_submission i (pipeline i w guard name validator msg built)) in
  sentry_starts tr = repeat "stake" (sentry_finishes tr)
  /\ (sentry_finishes tr <= 1)%nat
  /\ (forall c, In (Called c) tr -> sentry_finishes tr = 1%nat).
Proof.
  pipeline_cases i w guard built; repeat split; auto; intros c H; in_cases H.
Qed.



Lemma pipeline_broadcast i w guard name validator msg built s0 t0 o0 :
  In (Called (signAndExecuteTransaction s0 t0 o0))
     (fst (settle_submission i (pipeline i w guard name validator msg built))) ->
  o0 = signing_options /\ built = Returns t0
  /\ exists f0, signer i = Some f0 /\ w (call_signer f0) = Returns s0.
Proof.
  pipeline_cases i w guard built; intros H; in_cases H;
    injection H as <- <- <-; repeat split; eauto.
Qed.

Lemma pipeline_signer i w guard name validator msg built f0 :
  In (Called (call_signer f0))
     (fst (settle_submission i (pipeline i w guard name validator msg built))) ->
  signer i = Some f0 /\ guard = false /\ exists t0, built = Returns t0.
Proof.
  pipeline_cases i w guard built; intros H; in_cases H;
    injection H as <-; repeat split; eauto.
Qed.

Lemma toast_detail_nonempty (m : option string) :
  match m with
  | Some msg => if falsy msg then None else Some msg
  | None => None
  end <> Some "".
Proof.
  destruct m as [msg | ]; [ | discriminate ].
  destruct (falsy msg) eqn:Hm; [ discriminate | ].
  intros [= ->]. discriminate Hm.
Qed.

Lemma pipeline_toasts i w guard name validator msg built :
  let tr := fst (settle_submission i (pipeline i w guard name validator msg built)) in
  (List.length (toasts tr) + List.length (navigations tr) = 1)%nat
  /\ forall h d, In (h, d) (toasts tr) ->
       h = (if unstake i then "Unstake failed" else "Stake failed") /\ d <> Some "".
Proof.
  pipeline_cases i w guard built;
    (split; [ reflexivity | ]); intros h d H; in_cases H;
    injection H as <- <-;
    (split;
     [ now destruct (unstake i)
     | first [ apply (toast_detail_nonempty (Some msg))
             | apply (toast_detail_nonempty (message e)) ] ]).
Qed.

(** *** The handler's side effects *)

(** X1.  In every run of the handler the Sentry transactions started (all
    named "stake", in unstake mode too) are as many as the ones finished, at
    most one; and once a call has been awaited the transaction is finished,
    whether the call was fulfilled or rejected. *)
Theorem sentry_transaction_always_finished i w values :
  sentry_starts (trace w (onHandleSubmit i values)) =
    repeat "stake" (sentry_finishes (trace w (onHandleSubmit i values)))
  /\ (sentry_finishes (trace w (onHandleSubmit i values)) <= 1)%nat
  /\ (forall c, In (Called c) (trace w (onHandleSubmit i values)) ->
      sentry_finishes (trace w (onHandleSubmit i values)) = 1%nat).
Proof.
  unfold trace.
  destruct (onHandleSubmit_cases i w values)
    as [[_ ->] | [_ (guard & msg & built & ->)]].
  - cbn. repeat split; auto. contradiction.
  - apply pipeline_sentry.
Qed.



(** X8.  Every broadcast is made on the signer that the signer factory of
    the view resolved to, and asks for input, effects and events. *)
Theorem broadcast_uses_resolved_signer i w values s t o :
  In (Called (signAndExecuteTransaction s t o)) (trace w (onHandleSubmit i values)) ->
  o = {| showInput := true; showEffects := true; showEvents := true |}
  /\ exists f, signer i = Some f /\ w (call_signer f) = Returns s.
Proof.
  unfold trace.
  destruct (onHandleSubmit_cases i w values)
    as [[_ ->] | [_ (guard & msg & built & ->)]].
  - contradiction.
  - intros H. apply pipeline_broadcast in H. destruct H as (-> & _ & H).
    split; [ reflexivity | exact H ].
Qed.

(** X14.  A failure toast is headed "Unstake failed" in unstake mode and
    "Stake failed" otherwise, never carries an empty message, and a run that
    shows one neither navigates nor invalidates a query nor resets the
    form. *)
Theorem failure_toast_names_the_mode i w values (h : string) (d : option string) :
  In (h, d) (toasts (trace w (onHandleSubmit i values))) ->
  h = (if unstake i then "Unstake failed" else "Stake failed")
  /\ d <> Some ""
  /\ toasts (trace w (onHandleSubmit i values)) = [(h, d)]
  /\ navigations (trace w (onHandleSubmit i values)) = []
  /\ invalidated (trace w (onHandleSubmit i values)) = []
  /\ resets (trace w (onHandleSubmit i values)) = 0%nat.
Proof.
  intros Hin.
  assert (Hshape : h = (if unstake i then "Unstake failed" else "Stake failed")
                   /\ d <> Some "").
  { revert Hin. unfold trace.
    destruct (onHandleSubmit_cases i w values)
      as [[_ ->] | [_ (guard & msg & built & ->)]].
    - contradiction.
    - apply pipeline_toasts. }
  destruct Hshape as [Hh Hd]. split; [ exact Hh | ]. split; [ exact Hd | ].
  revert Hin. unfold trace. rewrite onHandleSubmit_run.
  destruct (submitted i values) as [m | ] eqn:Hm; [ | contradiction ].
  pose proof (mutation_run_effects (submitted_run i w values Hm))
    as (Hinv & Hnav & Htoast & Hreset).
  destruct (result w m) as [response | e]; cbn [fst];
    rewrite toasts_app, navigations_app, invalidated_app, resets_app,
            Hinv, Hnav, Htoast, Hreset.
  - contradiction.
  - unfold failure_toast. cbn. intros [[= <- <-] | []]. repeat split.
Qed.

(** *** The guards of the mutations, seen from the handler *)

(** X3.  The guard of the stake mutation refuses the amount 0 and nothing
    else about the amount: with a validator address, a coin type and a
    signer, every non-zero amount, a negative one too, passes it.  The
    event is then tracked, and it is the transaction builder that decides:
    if it throws, the mutation rejects with what it threw, and what is
    broadcast is what it built. *)
Theorem stake_guard_passes_nonzero_amounts i w (sv : StakeVariables) (f : Signer) :
  falsy (stake_validatorAddress sv) = false ->
  falsy (tokenTypeArg sv) = false ->
  stake_amount sv <> 0 ->
  signer i = Some f ->
  tracked (trace w (mutateAsync (stakeToken i) sv)) =
    [("Stake", Some (stake_validatorAddress sv))]
  /\ (forall e,
        createStakeTransaction (stake_amount sv) (stake_validatorAddress sv) = Throws e ->
        run w (mutateAsync (stakeToken i) sv) =
        ([Did (trackEvent "Stake" (Some (stake_validatorAddress sv)));
          Did (Sentry_startTransaction "stake");
          Did sentryTransaction_finish],
         Throws e))
  /\ (forall t, In t (broadcasts (trace w (mutateAsync (stakeToken i) sv))) ->
        createStakeTransaction (stake_amount sv) (stake_validatorAddress sv) = Returns t).
Proof.
  intros Hva Htt Hamt Hf. unfold mutateAsync, trace.
  rewrite stakeToken_pipeline. unfold pipeline.
  rewrite Hva, Htt, Hf. apply Z.eqb_neq in Hamt. rewrite Hamt. cbn [orb].
  destruct (createStakeTransaction _ _) as [t | e]; cbn.
  - destruct (w (call_signer f)) as [s | e]; cbn.
    + repeat split; [ discriminate | ]. intros t' [<- | []]. reflexivity.
    + repeat split; [ discriminate | contradiction ].
  - repeat split; [ now intros e' [= <-] | contradiction ].
Qed.

(** X5.  In stake mode an amount that converts to 0 (an empty field, for
    one) never leaves the handler: nothing is tracked, built or awaited, and
    the one thing shown is "Stake failed" with the message of the missing
    field error. *)
Theorem zero_amount_fails_before_tracking i w values (ct va : string) :
  coinType i = Some ct -> validatorAddress i = Some va -> unstake i = false ->
  parseAmount (amount values) (coinDecimals i) = 0 ->
  run w (onHandleSubmit i values) =
  ([Did (toast_error "Stake failed" (Some "Failed, missing required field"))],
   Returns tt).
Proof.
  intros Hc Ha Hu Hz.
  rewrite (onHandleSubmit_stake i w values Hc Ha Hu), Hz.
  unfold pipeline, settle_submission, failure_toast.
  rewrite Z.eqb_refl, orb_true_r, Hu. cbn. now destruct (signer i).
Qed.

(** X6.  Without a signer a submission that passes the handler's guards
    stops at the guard of its mutation: the handler shows the failure toast
    of its mode with the message of that mutation's error (the unstake one
    ends in a full stop) and does nothing else. *)
Theorem no_signer_fails_before_tracking i w values :
  returns_early i = false -> signer i = None ->
  run w (onHandleSubmit i values) =
  ([Did (toast_error
           (if unstake i then "Unstake failed" else "Stake failed")
           (Some (if unstake i then "Failed, missing required field."
                  else "Failed, missing required field")))],
   Returns tt).
Proof.
  intros Hre Hs.
  destruct (unstake i) eqn:Hu.
  - destruct (stakeSuiIdParams i) as [id | ] eqn:Hid.
    + rewrite (onHandleSubmit_unstake i w values Hu Hre Hid).
      unfold pipeline, settle_submission, failure_toast. rewrite Hs, Hu.
      now destruct (falsy id).
    + unfold returns_early in Hre. rewrite Hu, Hid in Hre. cbn in Hre.
      rewrite !orb_true_r in Hre. discriminate.
  - unfold returns_early in Hre. rewrite Hu in Hre.
    destruct (coinType i) as [ct | ] eqn:Hc; [ | discriminate ].
    destruct (validatorAddress i) as [va | ] eqn:Ha; [ | discriminate ].
    rewrite (onHandleSubmit_stake i w values Hc Ha Hu).
    unfold pipeline, settle_submission, failure_toast. rewrite Hs, Hu.
    now destruct (falsy va || _ || falsy ct).
Qed.

(** X7.  The signer factory is called only once a transaction has been
    built: whenever a run asks for the signer, it asks the signer of the
    view, and the builder of its mode has returned a transaction, for the
    stake identifier of the view in unstake mode and for the converted
    amount and the validator address otherwise. *)
Theorem signer_asked_only_with_built_transaction i w values (f : Signer) :
  In (Called (call_signer f)) (trace w (onHandleSubmit i values)) ->
  signer i = Some f
  /\ exists t : Transaction,
       if unstake i
       then exists id, stakeSuiIdParams i = Some id
                       /\ createUnstakeTransaction id = Returns t
       else exists va, validatorAddress i = Some va
                       /\ createStakeTransaction
                            (parseAmount (amount values) (coinDecimals i)) va
                          = Returns t.
Proof.
  unfold trace. intros Hin.
  destruct (returns_early i) eqn:Hre.
  { rewrite (returns_early_program i values Hre) in Hin. contradiction. }
  destruct (unstake i) eqn:Hu.
  - destruct (stakeSuiIdParams i) as [id | ] eqn:Hid.
    + rewrite (onHandleSubmit_unstake i w values Hu Hre Hid) in Hin.
      apply pipeline_signer in Hin. destruct Hin as (Hs & _ & t & Ht).
      split; [ exact Hs | ]. exists t, id. auto.
    + unfold returns_early in Hre. rewrite Hu, Hid in Hre. cbn in Hre.
      rewrite !orb_true_r in Hre. discriminate.
  - unfold returns_early in Hre. rewrite Hu in Hre.
    destruct (coinType i) as [ct | ] eqn:Hc; [ | discriminate ].
    destruct (validatorAddress i) as [va | ] eqn:Ha; [ | discriminate ].
    rewrite (onHandleSubmit_stake i w values Hc Ha Hu) in Hin.
    apply pipeline_signer in Hin. destruct Hin as (Hs & _ & t & Ht).
    split; [ exact Hs | ]. exists t, va. auto.
Qed.

(** X16.  An [address] parameter that is present but empty is not caught
    by the handler's own guard, which tests for null only: the component
    redirects, and the handler, were it invoked in stake mode, would stop at
    the guard of the stake mutation and show its missing-field error,
    whatever the amount. *)
Theorem empty_address_is_refused i w values (ct : string) (f : FormikProps) :
  coinType i = Some ct -> validatorAddress i = Some "" -> unstake i = false ->
  StakingCard i f = Navigate "/" true
  /\ run w (onHandleSubmit i values) =
     ([Did (toast_error "Stake failed" (Some "Failed, missing required field"))],
      Returns tt).
Proof.
  intros Hc Ha Hu. split.
  - unfold StakingCard. rewrite Hc, Ha. cbn. now rewrite orb_true_r.
  - rewrite (onHandleSubmit_stake i w values Hc Ha Hu).
    unfold pipeline, settle_submission, failure_toast. rewrite Hu. cbn.
    now destruct (signer i).
Qed.

(** X11.  The handler reads the coin type, the query parameters, the
    delegations, the decimals and the signer, and nothing else: two views
    that agree on these run the same program.  In particular it never looks
    at the balance, so an amount above the balance is submitted if the
    handler is invoked with it. *)
Theorem handler_ignores_balance i j values :
  coinType i = coinType j -> searchParams i = searchParams j ->
  allDelegation i = allDelegation j -> coinDecimals i = coinDecimals j ->
  signer i = signer j ->
  onHandleSubmit i values = onHandleSubmit j values.
Proof.
  intros Hc Hp Hd Hdec Hs.
  unfold onHandleSubmit, mutateAsync, stakeToken, unStakeToken, unstake,
    stakeData, validatorAddress, stakeSuiIdParams.
  now rewrite Hc, Hp, Hd, Hdec, Hs.
Qed.

(** *** The element *)

(** X10.  The component redirects to "/" exactly when the coin type or the
    validator address is null or empty, or the system state is missing
    although it is no longer loading; in every other case, also while the
    system state is still loading, it returns the form, flagged as loading
    as long as one of the three queries is. *)
Theorem redirects_exactly_when_unusable i (f : FormikProps) :
  (StakingCard i f = Navigate "/" true <->
   nullish_or_empty (coinType i) || nullish_or_empty (validatorAddress i)
   || (negb (validatorsIsloading i) && is_null (system i)) = true)
  /\ (nullish_or_empty (coinType i) || nullish_or_empty (validatorAddress i)
      || (negb (validatorsIsloading i) && is_null (system i)) = false ->
      exists card,
        StakingCard i f = Form card
        /\ loading card = isLoading i || validatorsIsloading i || loadingSuiBalances i).
Proof.
  unfold StakingCard, nullish_or_empty.
  destruct (coinType i) as [ct | ], (validatorAddress i) as [va | ]; cbn;
    rewrite ?orb_true_r;
    try (split; [ split; reflexivity | discriminate ]).
  destruct (falsy ct || falsy va
            || negb (validatorsIsloading i) && is_null (system i)).
  - split; [ split; reflexivity | discriminate ].
  - split; [ split; discriminate | ]. intros _. eexists. split; reflexivity.
Qed.

(** X12.  [delegationId] is set exactly when the delegations are loaded,
    the view names a non-empty stake identifier, the position found for it
    is [Active]; it is then the identifier the position carries. *)
Theorem delegationId_is_an_active_position i (id : string) :
  delegationId i = Some id <->
  exists ds staked sd,
    allDelegation i = Some ds /\ stakeSuiIdParams i = Some staked
    /\ staked <> "" /\ getDelegationDataByStakeId ds staked = Some sd
    /\ status sd = Active /\ stakedSuiId sd = id.
Proof.
  unfold delegationId, stakeData. split.
  - destruct (allDelegation i) as [ds | ]; [ | discriminate ].
    destruct (stakeSuiIdParams i) as [staked | ]; [ | discriminate ].
    destruct (falsy staked) eqn:Hst; [ discriminate | ].
    destruct (getDelegationDataByStakeId ds staked) as [sd | ] eqn:Hsd;
      [ | discriminate ].
    destruct (status sd) eqn:Hstatus; cbn; [ discriminate | ].
    intros [= <-]. exists ds, staked, sd. repeat split; auto.
    intros ->. discriminate Hst.
  - intros (ds & staked & sd & -> & -> & Hne & Hsd & Hstatus & <-).
    destruct (falsy staked) eqn:Hst.
    + apply String.eqb_eq in Hst. contradiction.
    + rewrite Hsd, Hstatus. reflexivity.
Qed.

(** *** The receipt URL *)
















(** *** The form *)

(** X15.  Whatever the outcome, a submission started by a click that the
    button accepts is over once the signer and the broadcast have settled:
    no submission is left in flight, the form is not submitting, its
    validity is what it was, and its history has grown by exactly the trace
    of the handler. *)
Theorem submission_ends_after_two_settlements i w (st : FormState) :
  inflight st = [] -> submit_enabled i (formik st) = true ->
  inflight (form_run i w st [click_submit; settles 0; settles 0]) = []
  /\ isSubmitting (formik (form_run i w st [click_submit; settles 0; settles 0]))
     = false
  /\ isValid (formik (form_run i w st [click_submit; settles 0; settles 0]))
     = isValid (formik st)
  /\ history (form_run i w st [click_submit; settles 0; settles 0]) =
     (history st ++ trace w (onHandleSubmit i (values st)))%list.
Proof.
  intros Hfl Hen. rewrite (click_then_settle i w st Hfl Hen).
  rewrite inflight_complete, isSubmitting_complete, isValid_complete,
    history_complete.
  repeat split.
Qed.

End Coverage.

(* ================================================================== *)
(** ** Concrete runs *)

Section Runs.

Import Sample.

(** Staking 2 SUI with validator 0xV. *)
Example stake_two_sui :
  run (accepting "9Xy") (onHandleSubmit stake_view {| amount := "2" |}) =
  ([Did (trackEvent "Stake" (Some "0xV"));
    Did (Sentry_startTransaction "stake");
    Called (call_signer wallet_signer);
    Called (signAndExecuteTransaction unlocked_signer stake_tx signing_options);
    Did sentryTransaction_finish;
    Did (invalidateQueries ["system"; "state"]);
    Did (invalidateQueries ["validator"]);
    Did resetForm;
    Did (navigate "/receipt?txdigest=9Xy&from=stake")],
   Returns tt).
Proof. reflexivity. Qed.

(** Unstaking the active position S1. *)
Example unstake_active_position :
  run (accepting "9Xy") (onHandleSubmit (unstake_view Active) {| amount := "" |}) =
  ([Did (trackEvent "Unstake" None);
    Did (Sentry_startTransaction "stake");
    Called (call_signer wallet_signer);
    Called (signAndExecuteTransaction unlocked_signer unstake_tx signing_options);
    Did sentryTransaction_finish;
    Did (invalidateQueries ["system"; "state"]);
    Did (invalidateQueries ["validator"]);
    Did resetForm;
    Did (navigate "/receipt?txdigest=9Xy&from=stake")],
   Returns tt).
Proof. reflexivity. Qed.

(** The signer throws during broadcast. *)
Example signer_throws :
  run (rejecting "User rejected") (onHandleSubmit stake_view {| amount := "2" |}) =
  ([Did (trackEvent "Stake" (Some "0xV"));
    Did (Sentry_startTransaction "stake");
    Called (call_signer wallet_signer);
    Called (signAndExecuteTransaction unlocked_signer stake_tx signing_options);
    Did sentryTransaction_finish;
    Did (toast_error "Stake failed" (Some "User rejected"))],
   Returns tt).
Proof. reflexivity. Qed.

(** An amount that does not convert is refused by the guard of the stake
    mutation. *)
Example unparsable_amount :
  run (accepting "9Xy") (onHandleSubmit stake_view {| amount := "abc" |}) =
  ([Did (toast_error "Stake failed" (Some "Failed, missing required field"))],
   Returns tt).
Proof. reflexivity. Qed.

(** Two clicks in a row start one submission: one call to the signer, and,
    once the awaited calls have settled, one broadcast. *)
Example two_clicks_one_broadcast :
  signer_calls
    (history (form_run stake_view (accepting "9Xy") (valid_form "2")
                [click_submit; click_submit])) = 1%nat
  /\ broadcasts
       (history (form_run stake_view (accepting "9Xy") (valid_form "2")
                   [click_submit; click_submit; settles 0; click_submit;
                    settles 0])) = [stake_tx].
Proof. split; reflexivity. Qed.

(** The guard is the button: [submitForm] called twice behind its back
    starts two submissions. *)
Remark submitForm_has_no_guard :
  List.length (inflight (submitForm stake_view
                           (submitForm stake_view (valid_form "2")))) = 2%nat.
Proof. reflexivity. Qed.

(** *** The claims at these runs *)

Lemma receipt_navigation_says_stake_witness :
  navigations
    (trace (accepting "9Xy") (onHandleSubmit (unstake_view Active) {| amount := "" |})) =
  ["/receipt?txdigest=9Xy&from=stake"].
Proof.
  refine (proj1 (@receipt_navigation_says_stake imports (unstake_view Active)
                   (accepting "9Xy") {| amount := "" |}
                   unlocked_signer unstake_tx signing_options receipt _ _)).
  - do 3 right. left. reflexivity.
  - reflexivity.
Defined.

Lemma second_submit_is_ignored_witness :
  form_step stake_view (accepting "9Xy")
    (form_run stake_view (accepting "9Xy") mounted
       [validated true None; types "2"; click_submit])
    click_submit =
  form_run stake_view (accepting "9Xy") mounted
    [validated true None; types "2"; click_submit].
Proof.
  refine (proj1 (@second_submit_is_ignored imports stake_view (accepting "9Xy")
                   [validated true None; types "2"; click_submit] _)).
  intros H. apply (f_equal (@List.length _)) in H.
  change (1%nat = 0%nat) in H. discriminate H.
Defined.

Lemma failed_broadcast_commits_nothing_witness :
  invalidated
    (trace (rejecting "User rejected") (onHandleSubmit stake_view {| amount := "2" |})) = []
  /\ navigations
       (trace (rejecting "User rejected") (onHandleSubmit stake_view {| amount := "2" |})) = []
  /\ resets
       (trace (rejecting "User rejected") (onHandleSubmit stake_view {| amount := "2" |})) = 0%nat.
Proof.
  assert (Hin : In (Called (broadcast stake_tx))
                  (trace (rejecting "User rejected")
                     (onHandleSubmit stake_view {| amount := "2" |})))
    by (do 3 right; left; reflexivity).
  destruct (@failed_broadcast_commits_nothing imports stake_view
              (rejecting "User rejected") {| amount := "2" |}
              (broadcast stake_tx) (Error "User rejected") Hin eq_refl)
    as (H1 & H2 & H3 & _).
  auto.
Defined.

(** The handler returns without navigating and without showing an error
    when it is invoked on the unstake view of a pending position. *)
Lemma handler_can_return_silently :
  result (accepting "9Xy")
    (onHandleSubmit (unstake_view Pending) {| amount := "" |}) = Returns tt
  /\ navigations
       (trace (accepting "9Xy")
          (onHandleSubmit (unstake_view Pending) {| amount := "" |})) = []
  /\ toasts
       (trace (accepting "9Xy")
          (onHandleSubmit (unstake_view Pending) {| amount := "" |})) = [].
Proof. repeat split. Qed.

Lemma handler_exits_witness :
  submit_enabled (unstake_view Active) (formik (valid_form "")) = true
  /\ returns_early (unstake_view Active) = false.
Proof.
  split; [ reflexivity | ].
  refine (proj2 (proj2 (@handler_exits imports (unstake_view Active) (accepting "9Xy")
                          {| amount := "" |}))
            (formik (valid_form "")) _).
  reflexivity.
Defined.

Lemma unstake_only_for_active_position_witness :
  onHandleSubmit (unstake_view Pending) {| amount := "1" |} = Ret (Returns tt)
  /\ submit_enabled (unstake_view Pending) (formik (valid_form "1")) = false.
Proof.
  destruct (proj2 (proj2 (@unstake_only_for_active_position imports
                            (unstake_view Pending) (accepting "9Xy")
                            {| amount := "1" |} eq_refl))) as [H1 H2].
  - right. right. exists (position Pending). split; reflexivity.
  - split; [ exact H1 | exact (H2 (formik (valid_form "1"))) ].
Defined.

Lemma success_invalidates_resets_navigates_witness :
  invalidated
    (trace (accepting "9Xy") (onHandleSubmit (unstake_view Active) {| amount := "" |})) =
  [["system"; "state"]; ["validator"]]
  /\ values (form_run (unstake_view Active) (accepting "9Xy") (valid_form "")
               [click_submit; settles 0; settles 0]) = initialValues.
Proof.
  assert (Hin : In (Called (broadcast unstake_tx))
                  (trace (accepting "9Xy")
                     (onHandleSubmit (unstake_view Active) {| amount := "" |})))
    by (do 3 right; left; reflexivity).
  destruct (@success_invalidates_resets_navigates imports (unstake_view Active)
              (accepting "9Xy") {| amount := "" |}
              unlocked_signer unstake_tx signing_options receipt Hin eq_refl)
    as (_ & H1 & _ & _ & _ & _ & H2).
  split; [ exact H1 | ].
  apply (H2 (valid_form "")); reflexivity.
Defined.

Lemma mutations_reject_missing_fields_witness :
  mutateAsync (stakeToken stake_view)
    {| tokenTypeArg := SUI_TYPE_ARG; stake_amount := 0;
       stake_validatorAddress := "0xV" |} =
  Ret (Throws (Error "Failed, missing required field"))
  /\ mutateAsync (unStakeToken stake_view) "" =
     Ret (Throws (Error "Failed, missing required field.")).
Proof.
  split.
  - refine (proj1 (proj1 (@mutations_reject_missing_fields imports stake_view)
                     {| tokenTypeArg := SUI_TYPE_ARG; stake_amount := 0;
                        stake_validatorAddress := "0xV" |} _)).
    reflexivity.
  - refine (proj1 (proj2 (@mutations_reject_missing_fields imports stake_view) "" _)).
    reflexivity.
Defined.

Lemma missing_parameters_redirect_witness :
  StakingCard no_address_view (formik (valid_form "2")) = Navigate "/" true.
Proof.
  refine (proj1 (@missing_parameters_redirect imports no_address_view _)
            (formik (valid_form "2"))).
  right. reflexivity.
Defined.

Lemma minimum_stake_is_one_coin_witness :
  minimumStake stake_view = 1000000000.
Proof.
  refine (proj1 (proj2 (proj2 (proj2 (@minimum_stake_is_one_coin imports stake_view _))) _)).
  - reflexivity.
  - reflexivity.
Defined.

Lemma unstake_ignores_amount_witness :
  onHandleSubmit (unstake_view Active) {| amount := "1" |} =
  onHandleSubmit (unstake_view Active) {| amount := "999" |}.
Proof.
  refine (proj1 (@unstake_ignores_amount imports (unstake_view Active) "1" "999" _)).
  reflexivity.
Defined.

End Runs.

(* ================================================================== *)
(** ** Further concrete runs *)

Section CoverageRuns.

Import Sample.

Lemma stake_guard_passes_nonzero_amounts_witness :
  run (accepting "9Xy") (mutateAsync (stakeToken stake_view) negative_stake) =
  ([Did (trackEvent "Stake" (Some "0xV"));
    Did (Sentry_startTransaction "stake");
    Did sentryTransaction_finish],
   Throws (Error "InvalidInput")).
Proof.
  assert (Hne : stake_amount negative_stake <> 0) by (intros H; discriminate H).
  exact (proj1 (proj2 (@stake_guard_passes_nonzero_amounts imports stake_view
                         (accepting "9Xy") negative_stake wallet_signer
                         eq_refl eq_refl Hne eq_refl))
           (Error "InvalidInput") eq_refl).
Defined.

Lemma stake_broadcasts_converted_amount_witness :
  exists va,
    validatorAddress stake_view = Some va
    /\ Sample.createStakeTransaction (Sample.parseAmount "2" 9) va = Returns stake_tx.
Proof.
  exact (@stake_broadcasts_converted_amount imports stake_view (accepting "9Xy")
           {| amount := "2" |} stake_tx eq_refl (or_introl eq_refl)).
Defined.

Lemma zero_amount_fails_before_tracking_witness :
  run (accepting "9Xy") (onHandleSubmit stake_view {| amount := "" |}) =
  ([Did (toast_error "Stake failed" (Some "Failed, missing required field"))],
   Returns tt).
Proof.
  exact (@zero_amount_fails_before_tracking imports stake_view (accepting "9Xy")
           {| amount := "" |} SUI_TYPE_ARG "0xV" eq_refl eq_refl eq_refl eq_refl).
Defined.

Lemma no_signer_fails_before_tracking_witness :
  run (accepting "9Xy") (onHandleSubmit locked_view {| amount := "2" |}) =
  ([Did (toast_error "Stake failed" (Some "Failed, missing required field"))],
   Returns tt).
Proof.
  exact (@no_signer_fails_before_tracking imports locked_view (accepting "9Xy")
           {| amount := "2" |} eq_refl eq_refl).
Defined.

Lemma empty_address_is_refused_witness :
  run (accepting "9Xy") (onHandleSubmit empty_address_view {| amount := "2" |}) =
  ([Did (toast_error "Stake failed" (Some "Failed, missing required field"))],
   Returns tt).
Proof.
  exact (proj2 (@empty_address_is_refused imports empty_address_view
                  (accepting "9Xy") {| amount := "2" |} SUI_TYPE_ARG
                  (formik (valid_form "2")) eq_refl eq_refl eq_refl)).
Defined.

Lemma signer_asked_only_with_built_transaction_witness :
  signer stake_view = Some wallet_signer.
Proof.
  refine (proj1 (@signer_asked_only_with_built_transaction imports stake_view
                   (accepting "9Xy") {| amount := "2" |} wallet_signer _)).
  do 2 right. left. reflexivity.
Defined.

Lemma broadcast_uses_resolved_signer_witness :
  exists f, signer (unstake_view Active) = Some f
            /\ accepting "9Xy" (call_signer f) = Returns unlocked_signer.
Proof.
  refine (proj2 (@broadcast_uses_resolved_signer imports (unstake_view Active)
                   (accepting "9Xy") {| amount := "" |}
                   unlocked_signer unstake_tx signing_options _)).
  do 3 right. left. reflexivity.
Defined.

Lemma handler_ignores_balance_witness :
  onHandleSubmit stake_view {| amount := "7" |} =
  onHandleSubmit empty_wallet_view {| amount := "7" |}.
Proof.
  exact (@handler_ignores_balance imports stake_view empty_wallet_view
           {| amount := "7" |} eq_refl eq_refl eq_refl eq_refl eq_refl).
Defined.

Lemma failure_toast_names_the_mode_witness :
  navigations
    (trace (rejecting "User rejected")
       (onHandleSubmit (unstake_view Active) {| amount := "" |})) = [].
Proof.
  refine (proj1 (proj2 (proj2 (proj2
            (@failure_toast_names_the_mode imports (unstake_view Active)
               (rejecting "User rejected") {| amount := "" |}
               "Unstake failed" (Some "User rejected") _))))).
  left. reflexivity.
Defined.

Lemma submission_ends_after_two_settlements_witness :
  inflight (form_run stake_view (rejecting "User rejected") (valid_form "2")
              [click_submit; settles 0; settles 0]) = [].
Proof.
  exact (proj1 (@submission_ends_after_two_settlements imports stake_view
                  (rejecting "User rejected") (valid_form "2") eq_refl eq_refl)).
Defined.

End CoverageRuns.
